(** * android-ndk-backtrace-test: the backtrace collector, the three unwinding
      strategies and the symbolizer of [jni/main.c], as Rocq functions.

    Machine integers ([uintptr_t], [size_t], [unsigned long]) are [Z] with
    the wrap-around written out; the fixed array [addresses] is a list of
    [address_count_max] cells updated by index; mutation of the
    [BacktraceState] behind the pointer is explicit state passing. *)

From stdpp Require Import base list strings.
From Stdlib Require Import ZArith Lia Ascii DecimalString HexadecimalString.

Open Scope Z_scope.

(** ** Build configuration

    [jni/Android.mk] builds [main.c] once per [TARGET_ARCH_ABI]; the
    preprocessor symbols [__arm__] and [__thumb__] that [main.c] tests are
    fixed by the ABI and by the ARM instruction mode the file is compiled
    in. *)

Inductive TargetArchAbi : Type :=
  | armeabi | armeabi_v7a | arm64_v8a | x86 | x86_64.

Record Build : Type := {
  target_arch_abi : TargetArchAbi;
  arm_mode_thumb : bool
}.

Definition __arm__ (b : Build) : bool :=
  match target_arch_abi b with
  | armeabi | armeabi_v7a => true
  | arm64_v8a | x86 | x86_64 => false
  end.

Definition __thumb__ (b : Build) : bool := __arm__ b && arm_mode_thumb b.

(** Width of [uintptr_t], [size_t] and [unsigned long] (equal on every
    Android ABI). *)
Definition pointer_bits (b : Build) : Z :=
  match target_arch_abi b with
  | armeabi | armeabi_v7a | x86 => 32
  | arm64_v8a | x86_64 => 64
  end.

Definition LIBUNWIND_WITH_REGISTERS_METHOD (b : Build) : bool := __arm__ b.
Definition UNWIND_BACKTRACE_WITH_REGISTERS_METHOD (b : Build) : bool := __arm__ b.
Definition UNWIND_BACKTRACE_WITH_SKIPPING_METHOD (b : Build) : bool := true.

(** ** The fault context

    The registers of [struct sigcontext] that [main.c] reads (32-bit ARM
    layout). *)

Record sigcontext : Type := {
  arm_r0 : Z; arm_r1 : Z; arm_r2 : Z; arm_r3 : Z;
  arm_r4 : Z; arm_r5 : Z; arm_r6 : Z; arm_r7 : Z;
  arm_r8 : Z; arm_r9 : Z; arm_r10 : Z;
  arm_fp : Z; arm_ip : Z; arm_sp : Z; arm_lr : Z; arm_pc : Z
}.

Record ucontext_t : Type := { uc_mcontext : sigcontext }.

(** ** The collector *)

Definition address_count_max : Z := 30.

Record BacktraceState : Type := {
  signal_ucontext : ucontext_t;
  address_skip_count : Z;
  address_count : Z;
  addresses : list Z
}.

Definition thumb_bit : Z := 1.

Section Collector.

Variable b : Build.

(** Reduction of a mathematical integer to an unsigned machine word. *)
Definition to_word (x : Z) : Z := x mod 2 ^ pointer_bits b.

(** [memset(state, 0, sizeof(BacktraceState))], then the two assignments. *)
Definition BacktraceState_Init (ucontext : ucontext_t) : BacktraceState :=
  {| signal_ucontext := ucontext;
     address_skip_count := 3;
     address_count := 0;
     addresses := replicate (Z.to_nat address_count_max) 0 |}.

(** [#if __thumb__  ip &= ~thumb_bit;  #endif] *)
Definition reset_thumb_bit (ip : Z) : Z :=
  if __thumb__ b then Z.land ip (to_word (Z.lnot thumb_bit)) else ip.

(** [state->addresses[state->address_count++] = ip;] *)
Definition store_address (state : BacktraceState) (ip : Z) : BacktraceState :=
  {| signal_ucontext := signal_ucontext state;
     address_skip_count := address_skip_count state;
     address_count := to_word (address_count state + 1);
     addresses := <[Z.to_nat (address_count state) := ip]> (addresses state) |}.

(** The returned pair is the [bool] result and the state left behind
    [state]. *)
Definition BacktraceState_AddAddress (state : BacktraceState) (ip : Z)
  : bool * BacktraceState :=
  if address_count state >=? address_count_max then (false, state)
  else
    let ip := reset_thumb_bit ip in
    if address_count state >? 0 then
      if ip =? 0 then (true, state)
      else if ip =? addresses state !!! Z.to_nat (address_count state - 1)
      then (true, state)
      else (true, store_address state ip)
    else (true, store_address state ip).

(** A sequence of [AddAddress] calls, results discarded. *)
Definition add_addresses (state : BacktraceState) (ips : list Z) : BacktraceState :=
  fold_left (fun s ip => snd (BacktraceState_AddAddress s ip)) ips state.

(** [state->address_skip_count--] *)
Definition decrement_skip_count (state : BacktraceState) : BacktraceState :=
  {| signal_ucontext := signal_ucontext state;
     address_skip_count := to_word (address_skip_count state - 1);
     address_count := address_count state;
     addresses := addresses state |}.

(** The states the program can build: [main.c] writes a [BacktraceState]
    only in [BacktraceState_Init], in [BacktraceState_AddAddress] and in the
    skip-counter decrement of the skipping callback. *)
Inductive reachable : BacktraceState -> Prop :=
  | reachable_Init ucontext :
      reachable (BacktraceState_Init ucontext)
  | reachable_AddAddress state ip :
      reachable state ->
      reachable (snd (BacktraceState_AddAddress state ip))
  | reachable_skip state :
      reachable state -> address_skip_count state > 0 ->
      reachable (decrement_skip_count state).

(** The last stored address, [addresses[address_count - 1]]. *)
Definition last_address (state : BacktraceState) : Z :=
  addresses state !!! Z.to_nat (address_count state - 1).

(** The invariant behind [reachable]: the count is within the array, and
    every stored address has been through [reset_thumb_bit]. *)
Record state_ok (state : BacktraceState) : Prop := {
  ok_count : 0 <= address_count state <= address_count_max;
  ok_length : length (addresses state) = Z.to_nat address_count_max;
  ok_thumb :
    forall (i : nat) a, (i < Z.to_nat (address_count state))%nat ->
      addresses state !! i = Some a -> reset_thumb_bit a = a
}.

End Collector.

Arguments state_ok b state : clear implicits.

(** ** The generic unwinder ([<unwind.h>])

    [_Unwind_Backtrace] and the accessors of [struct _Unwind_Context] belong
    to the platform's unwind runtime.  [main.c] uses them through this
    interface; the two laws say that the context stores what
    [_Unwind_SetGR] writes. *)

Inductive _Unwind_Reason_Code : Type :=
  | _URC_NO_REASON
  | _URC_END_OF_STACK.

(** Register numbers [REG_R0] .. [REG_R15] of [<sys/ucontext.h>]. *)
Inductive arm_reg : Type :=
  | REG_R0 | REG_R1 | REG_R2 | REG_R3 | REG_R4 | REG_R5 | REG_R6 | REG_R7
  | REG_R8 | REG_R9 | REG_R10 | REG_R11 | REG_R12 | REG_R13 | REG_R14
  | REG_R15.

#[global] Instance arm_reg_eq_dec : EqDecision arm_reg.
Proof. solve_decision. Defined.

Class UnwindRuntime : Type := {
  _Unwind_Context : Type;
  _Unwind_SetGR : _Unwind_Context -> arm_reg -> Z -> _Unwind_Context;
  _Unwind_GetGR : _Unwind_Context -> arm_reg -> Z;
  _Unwind_GetIP : _Unwind_Context -> Z;
  _Unwind_GetGR_SetGR_eq : forall c r v,
    _Unwind_GetGR (_Unwind_SetGR c r v) r = v;
  _Unwind_GetGR_SetGR_ne : forall c r r' v,
    r <> r' -> _Unwind_GetGR (_Unwind_SetGR c r v) r' = _Unwind_GetGR c r'
}.

(** The value [ProcessRegisters] and [LibunwindWithRegisters] take from the
    fault context for each core register. *)
Definition sigcontext_reg (m : sigcontext) (r : arm_reg) : Z :=
  match r with
  | REG_R0 => arm_r0 m | REG_R1 => arm_r1 m | REG_R2 => arm_r2 m
  | REG_R3 => arm_r3 m | REG_R4 => arm_r4 m | REG_R5 => arm_r5 m
  | REG_R6 => arm_r6 m | REG_R7 => arm_r7 m | REG_R8 => arm_r8 m
  | REG_R9 => arm_r9 m | REG_R10 => arm_r10 m | REG_R11 => arm_fp m
  | REG_R12 => arm_ip m | REG_R13 => arm_sp m | REG_R14 => arm_lr m
  | REG_R15 => arm_pc m
  end.

Section UnwindBacktrace.

Variable b : Build.
Context {runtime : UnwindRuntime}.

(** *** UNWIND_BACKTRACE_WITH_REGISTERS_METHOD *)

(** Returns the unwind context and the state it leaves behind. *)
Definition ProcessRegisters (unwind_context : _Unwind_Context)
    (state : BacktraceState) : _Unwind_Context * BacktraceState :=
  let signal_ucontext := signal_ucontext state in
  let signal_mcontext := uc_mcontext signal_ucontext in
  let unwind_context := _Unwind_SetGR unwind_context REG_R0 (arm_r0 signal_mcontext) in
  let unwind_context := _Unwind_SetGR unwind_context REG_R1 (arm_r1 signal_mcontext) in
  let unwind_context := _Unwind_SetGR unwind_context REG_R2 (arm_r2 signal_mcontext) in
  let unwind_context := _Unwind_SetGR unwind_context REG_R3 (arm_r3 signal_mcontext) in
  let unwind_context := _Unwind_SetGR unwind_context REG_R4 (arm_r4 signal_mcontext) in
  let unwind_context := _Unwind_SetGR unwind_context REG_R5 (arm_r5 signal_mcontext) in
  let unwind_context := _Unwind_SetGR unwind_context REG_R6 (arm_r6 signal_mcontext) in
  let unwind_context := _Unwind_SetGR unwind_context REG_R7 (arm_r7 signal_mcontext) in
  let unwind_context := _Unwind_SetGR unwind_context REG_R8 (arm_r8 signal_mcontext) in
  let unwind_context := _Unwind_SetGR unwind_context REG_R9 (arm_r9 signal_mcontext) in
  let unwind_context := _Unwind_SetGR unwind_context REG_R10 (arm_r10 signal_mcontext) in
  let unwind_context := _Unwind_SetGR unwind_context REG_R11 (arm_fp signal_mcontext) in
  let unwind_context := _Unwind_SetGR unwind_context REG_R12 (arm_ip signal_mcontext) in
  let unwind_context := _Unwind_SetGR unwind_context REG_R13 (arm_sp signal_mcontext) in
  let unwind_context := _Unwind_SetGR unwind_context REG_R14 (arm_lr signal_mcontext) in
  let unwind_context := _Unwind_SetGR unwind_context REG_R15 (arm_pc signal_mcontext) in
  (unwind_context,
   snd (BacktraceState_AddAddress b state (arm_pc signal_mcontext))).

Definition UnwindBacktraceWithRegistersCallback
    (unwind_context : _Unwind_Context) (state : BacktraceState)
  : _Unwind_Reason_Code * _Unwind_Context * BacktraceState :=
  if address_count state =? 0 then
    let '(unwind_context, state) := ProcessRegisters unwind_context state in
    (_URC_NO_REASON, unwind_context, state)
  else
    let ip := _Unwind_GetIP unwind_context in
    let '(ok, state) := BacktraceState_AddAddress b state ip in
    if negb ok then (_URC_END_OF_STACK, unwind_context, state)
    else (_URC_NO_REASON, unwind_context, state).

(** *** UNWIND_BACKTRACE_WITH_SKIPPING_METHOD *)

Definition UnwindBacktraceWithSkippingCallback
    (unwind_context : _Unwind_Context) (state : BacktraceState)
  : _Unwind_Reason_Code * BacktraceState :=
  if address_skip_count state >? 0 then
    (_URC_NO_REASON, decrement_skip_count b state)
  else
    let ip := _Unwind_GetIP unwind_context in
    let '(ok, state) := BacktraceState_AddAddress b state ip in
    if negb ok then (_URC_END_OF_STACK, state)
    else (_URC_NO_REASON, state).

(** [state] with its skip counter set to [k]. *)
Definition with_skip_count (state : BacktraceState) (k : Z) : BacktraceState :=
  {| signal_ucontext := signal_ucontext state;
     address_skip_count := k;
     address_count := address_count state;
     addresses := addresses state |}.

(** Successive invocations of the skipping callback, one per frame context
    that [_Unwind_Backtrace] hands over together with the same [state]
    pointer: the reason code and the state after each invocation. *)
Fixpoint skipping_invocations (frames : list _Unwind_Context)
    (state : BacktraceState) : list (_Unwind_Reason_Code * BacktraceState) :=
  match frames with
  | [] => []
  | unwind_context :: frames =>
      let r := UnwindBacktraceWithSkippingCallback unwind_context state in
      r :: skipping_invocations frames (snd r)
  end.

End UnwindBacktrace.

(** ** The local unwinder ([libunwind.h])

    [unw_getcontext], [unw_init_local], [unw_set_reg], [unw_get_reg] and
    [unw_step] come from the prebuilt [libunwind.a]; [main.c] only calls
    them.  [unw_step] returns its [int] result and the advanced cursor. *)

Inductive unw_regnum_t : Type :=
  | UNW_REG_IP | UNW_REG_SP
  | UNW_ARM_R0 | UNW_ARM_R1 | UNW_ARM_R2 | UNW_ARM_R3 | UNW_ARM_R4
  | UNW_ARM_R5 | UNW_ARM_R6 | UNW_ARM_R7 | UNW_ARM_R8 | UNW_ARM_R9
  | UNW_ARM_R10 | UNW_ARM_R11 | UNW_ARM_R12 | UNW_ARM_R13 | UNW_ARM_R14
  | UNW_ARM_R15.

#[global] Instance unw_regnum_eq_dec : EqDecision unw_regnum_t.
Proof. solve_decision. Defined.

Class Libunwind : Type := {
  unw_context_t : Type;
  unw_cursor_t : Type;
  unw_init_local : unw_context_t -> unw_cursor_t;
  unw_set_reg : unw_cursor_t -> unw_regnum_t -> Z -> unw_cursor_t;
  unw_get_reg : unw_cursor_t -> unw_regnum_t -> Z;
  unw_step : unw_cursor_t -> Z * unw_cursor_t
}.

Section LibunwindMethod.

Variable b : Build.
Context {libunwind : Libunwind}.

(** The eighteen [unw_set_reg] calls. *)
Definition set_registers (unw_cursor : unw_cursor_t)
    (signal_mcontext : sigcontext) : unw_cursor_t :=
  let unw_cursor := unw_set_reg unw_cursor UNW_ARM_R0 (arm_r0 signal_mcontext) in
  let unw_cursor := unw_set_reg unw_cursor UNW_ARM_R1 (arm_r1 signal_mcontext) in
  let unw_cursor := unw_set_reg unw_cursor UNW_ARM_R2 (arm_r2 signal_mcontext) in
  let unw_cursor := unw_set_reg unw_cursor UNW_ARM_R3 (arm_r3 signal_mcontext) in
  let unw_cursor := unw_set_reg unw_cursor UNW_ARM_R4 (arm_r4 signal_mcontext) in
  let unw_cursor := unw_set_reg unw_cursor UNW_ARM_R5 (arm_r5 signal_mcontext) in
  let unw_cursor := unw_set_reg unw_cursor UNW_ARM_R6 (arm_r6 signal_mcontext) in
  let unw_cursor := unw_set_reg unw_cursor UNW_ARM_R7 (arm_r7 signal_mcontext) in
  let unw_cursor := unw_set_reg unw_cursor UNW_ARM_R8 (arm_r8 signal_mcontext) in
  let unw_cursor := unw_set_reg unw_cursor UNW_ARM_R9 (arm_r9 signal_mcontext) in
  let unw_cursor := unw_set_reg unw_cursor UNW_ARM_R10 (arm_r10 signal_mcontext) in
  let unw_cursor := unw_set_reg unw_cursor UNW_ARM_R11 (arm_fp signal_mcontext) in
  let unw_cursor := unw_set_reg unw_cursor UNW_ARM_R12 (arm_ip signal_mcontext) in
  let unw_cursor := unw_set_reg unw_cursor UNW_ARM_R13 (arm_sp signal_mcontext) in
  let unw_cursor := unw_set_reg unw_cursor UNW_ARM_R14 (arm_lr signal_mcontext) in
  let unw_cursor := unw_set_reg unw_cursor UNW_ARM_R15 (arm_pc signal_mcontext) in
  let unw_cursor := unw_set_reg unw_cursor UNW_REG_IP (arm_pc signal_mcontext) in
  let unw_cursor := unw_set_reg unw_cursor UNW_REG_SP (arm_sp signal_mcontext) in
  unw_cursor.

(** [while (unw_step(&unw_cursor) > 0) { ... }].  The loop has no bound of
    its own (a cursor that keeps yielding a frame whose address the
    collector ignores never leaves it), so the model counts iterations and
    answers [None] when [fuel] runs out. *)
Fixpoint unwind_frames (fuel : nat) (unw_cursor : unw_cursor_t)
    (state : BacktraceState) : option BacktraceState :=
  match fuel with
  | O => None
  | S fuel =>
      let '(result, unw_cursor) := unw_step unw_cursor in
      if result >? 0 then
        let ip := unw_get_reg unw_cursor UNW_REG_IP in
        let '(ok, state) := BacktraceState_AddAddress b state ip in
        if negb ok then Some state
        else unwind_frames fuel unw_cursor state
      else Some state
  end.

(** [unw_context] is what [unw_getcontext] captured in the handler. *)
Definition LibunwindWithRegisters (fuel : nat) (unw_context : unw_context_t)
    (state : BacktraceState) : option BacktraceState :=
  let unw_cursor := unw_init_local unw_context in
  let signal_ucontext := signal_ucontext state in
  let signal_mcontext := uc_mcontext signal_ucontext in
  let unw_cursor := set_registers unw_cursor signal_mcontext in
  let state := snd (BacktraceState_AddAddress b state (arm_pc signal_mcontext)) in
  unwind_frames fuel unw_cursor state.

(** The frames a cursor yields: [unwinds c ips c'] when stepping [c]
    succeeds [length ips] times in a row, the instruction pointer read after
    each step being the corresponding element of [ips], and leaves the
    cursor [c']. *)
Inductive unwinds : unw_cursor_t -> list Z -> unw_cursor_t -> Prop :=
  | unwinds_nil c : unwinds c [] c
  | unwinds_cons c ips c' :
      fst (unw_step c) > 0 ->
      unwinds (snd (unw_step c)) ips c' ->
      unwinds c (unw_get_reg (snd (unw_step c)) UNW_REG_IP :: ips) c'.

(** The walk as section 4.2 of the design words it: add each address in
    order through the collector, stop at the first rejected insertion.  The
    boolean tells whether every insertion was accepted. *)
Fixpoint add_until_rejected (state : BacktraceState) (ips : list Z)
  : bool * BacktraceState :=
  match ips with
  | [] => (true, state)
  | ip :: ips =>
      let '(ok, state) := BacktraceState_AddAddress b state ip in
      if ok then add_until_rejected state ips else (false, state)
  end.

End LibunwindMethod.

(** ** The symbolizer

    [dladdr] and [__cxa_demangle] are the C library's and the C++ ABI
    library's.  [dladdr address] is [Some info] when the call returns
    nonzero and fills [info]; on [None] the local [info] keeps its zero
    initialisation.  [__cxa_demangle name] is the returned buffer, [None]
    for [NULL]. *)

Record Dl_info : Type := {
  dli_fname : option string;
  dli_fbase : Z;
  dli_sname : option string;
  dli_saddr : Z
}.

(** [Dl_info info = {};] *)
Definition Dl_info_zero : Dl_info :=
  {| dli_fname := None; dli_fbase := 0; dli_sname := None; dli_saddr := 0 |}.

(** How a run of [PrintBacktrace] ends: it returns, or a failed [assert]
    aborts the process. *)
Inductive termination : Type :=
  | returns
  | assertion_failed.

Definition newline : string := String (ascii_of_nat 10) EmptyString.

Definition decimal (n : Z) : string :=
  DecimalString.NilZero.string_of_uint (N.to_uint (Z.to_N n)).

Definition hexadecimal (n : Z) : string :=
  HexadecimalString.NilZero.string_of_uint (N.to_hex_uint (Z.to_N n)).

(** [%02zu] *)
Definition zero_padded_2 (n : Z) : string :=
  let digits := decimal n in
  if (String.length digits <? 2)%nat then String.append "0" digits else digits.

(** [printf("  #%02zu:  0x%lx  %s\n", frame_index, relative_address, symbol_name)] *)
Definition printf_frame (frame_index relative_address : Z)
    (symbol_name : string) : string :=
  String.append "  #"
    (String.append (zero_padded_2 frame_index)
      (String.append ":  0x"
        (String.append (hexadecimal relative_address)
          (String.append "  " (String.append symbol_name newline))))).

Section Symbolizer.

Variable b : Build.
Variable dladdr : Z -> option Dl_info.
Variable __cxa_demangle : string -> option string.

(** The loop body after [assert(address)]. *)
Definition print_frame (frame_index address : Z) : string :=
  let symbol_name := "" in
  let info := Dl_info_zero in
  let '(symbol_name, info) :=
    match dladdr address with
    | Some found =>
        match dli_sname found with
        | Some sname => (sname, found)
        | None => (symbol_name, found)
        end
    | None => (symbol_name, info)
    end in
  let relative_address := to_word b (address - dli_fbase info) in
  let symbol_name :=
    match __cxa_demangle symbol_name with
    | Some demangled => demangled
    | None => symbol_name
    end in
  printf_frame frame_index relative_address symbol_name.

(** The [for] loop with [remaining] iterations left; the lines written to
    standard output so far come with the way the run ends.  [frame_index]
    stays below [address_count], hence inside the array, in every state the
    program builds. *)
Fixpoint print_frames (remaining : nat) (frame_index : Z)
    (state : BacktraceState) : list string * termination :=
  match remaining with
  | O => ([], returns)
  | S remaining =>
      let address := addresses state !!! Z.to_nat frame_index in
      if address =? 0 then ([], assertion_failed)
      else
        let line := print_frame frame_index address in
        let '(lines, t) := print_frames remaining (frame_index + 1) state in
        (line :: lines, t)
  end.

Definition PrintBacktrace (state : BacktraceState) : list string * termination :=
  let frame_count := address_count state in
  print_frames (Z.to_nat frame_count) 0 state.

End Symbolizer.

(** ** The stored addresses and the drivers of the callback strategies *)

(** The part of the array that holds collected addresses: its first
    [address_count] cells. *)
Definition stored_addresses (state : BacktraceState) : list Z :=
  take (Z.to_nat (address_count state)) (addresses state).

Section UnwindBacktraceDrivers.

Variable b : Build.
Context {runtime : UnwindRuntime}.

(** [_Unwind_Backtrace(trace, state)] as [main.c] relies on it: the runtime
    invokes [trace] on one frame context after the other, each time with the
    same [state] pointer, and stops at the first answer other than
    [_URC_NO_REASON] or when it finds no further frame.  [frames] are the
    contexts the callback is invoked on, in order, whatever the runtime
    derives them from. *)
Fixpoint _Unwind_Backtrace
    (trace : _Unwind_Context -> BacktraceState ->
             _Unwind_Reason_Code * BacktraceState)
    (frames : list _Unwind_Context) (state : BacktraceState) : BacktraceState :=
  match frames with
  | [] => state
  | unwind_context :: frames =>
      let '(code, state) := trace unwind_context state in
      match code with
      | _URC_NO_REASON => _Unwind_Backtrace trace frames state
      | _URC_END_OF_STACK => state
      end
  end.

Definition UnwindBacktraceWithRegisters (frames : list _Unwind_Context)
    (state : BacktraceState) : BacktraceState :=
  _Unwind_Backtrace
    (fun unwind_context state =>
       let '(code, _, state) :=
         UnwindBacktraceWithRegistersCallback b unwind_context state in
       (code, state))
    frames state.

Definition UnwindBacktraceWithSkipping (frames : list _Unwind_Context)
    (state : BacktraceState) : BacktraceState :=
  _Unwind_Backtrace (UnwindBacktraceWithSkippingCallback b) frames state.

End UnwindBacktraceDrivers.

(** ** The signal handler *)

(** How the process ends once the handler runs: [exit(0)], or [abort()]
    from a failed assertion. *)
Inductive process_end : Type :=
  | exit (status : Z)
  | abort.

Definition header_libunwind_with_registers : string :=
  String.append "Backtrace captured using LIBUNWIND_WITH_REGISTERS_METHOD:" newline.
Definition header_unwind_backtrace_with_registers : string :=
  String.append
    "Backtrace captured using UNWIND_BACKTRACE_WITH_REGISTERS_METHOD:" newline.
Definition header_unwind_backtrace_with_skipping : string :=
  String.append
    "Backtrace captured using UNWIND_BACKTRACE_WITH_SKIPPING_METHOD:" newline.

(** Two statements in sequence: the second runs only when the first
    returns; [None] is a computation that runs out of fuel. *)
Definition and_then (first second : option (list string * termination))
  : option (list string * termination) :=
  match first with
  | None => None
  | Some (output, assertion_failed) => Some (output, assertion_failed)
  | Some (output, returns) =>
      match second with
      | None => None
      | Some (more, t) => Some (output ++ more, t)
      end
  end.

Section SignalHandler.

Variable b : Build.
Context {runtime : UnwindRuntime} {libunwind : Libunwind}.
Variable dladdr : Z -> option Dl_info.
Variable __cxa_demangle : string -> option string.

(** One block of the handler: the [printf] of its header, the capture into
    a fresh [backtrace_state], then [PrintBacktrace]. *)
Definition handler_block (header : string) (captured : option BacktraceState)
  : option (list string * termination) :=
  match captured with
  | None => None
  | Some backtrace_state =>
      let '(lines, t) :=
        PrintBacktrace b dladdr __cxa_demangle backtrace_state in
      Some (header :: lines, t)
  end.

(** [fuel] and [unw_context] serve the cursor walk; [registers_frames] and
    [skipping_frames] are the frame contexts [_Unwind_Backtrace] visits in
    the two callback strategies.  The result is what was handed to [printf],
    in order, and how the process ended. *)
Definition SigActionHandler (fuel : nat) (unw_context : unw_context_t)
    (registers_frames skipping_frames : list _Unwind_Context)
    (signal_ucontext : ucontext_t) : option (list string * process_end) :=
  let skipped := Some ([], returns) in
  let libunwind_block :=
    if LIBUNWIND_WITH_REGISTERS_METHOD b then
      handler_block header_libunwind_with_registers
        (LibunwindWithRegisters b fuel unw_context
           (BacktraceState_Init signal_ucontext))
    else skipped in
  let registers_block :=
    if UNWIND_BACKTRACE_WITH_REGISTERS_METHOD b then
      handler_block header_unwind_backtrace_with_registers
        (Some (UnwindBacktraceWithRegisters b registers_frames
                 (BacktraceState_Init signal_ucontext)))
    else skipped in
  let skipping_block :=
    if UNWIND_BACKTRACE_WITH_SKIPPING_METHOD b then
      handler_block header_unwind_backtrace_with_skipping
        (Some (UnwindBacktraceWithSkipping b skipping_frames
                 (BacktraceState_Init signal_ucontext)))
    else skipped in
  match and_then libunwind_block (and_then registers_block skipping_block) with
  | None => None
  | Some (output, returns) => Some (output, exit 0)
  | Some (output, assertion_failed) => Some (output, abort)
  end.

End SignalHandler.

(** ** Concrete builds, contexts and runtimes

    Small instances of the interfaces above, on which the functions can be
    evaluated. *)

Definition build_armv7_thumb : Build :=
  {| target_arch_abi := armeabi_v7a; arm_mode_thumb := true |}.

Definition build_armv7_arm : Build :=
  {| target_arch_abi := armeabi_v7a; arm_mode_thumb := false |}.

Definition build_arm64 : Build :=
  {| target_arch_abi := arm64_v8a; arm_mode_thumb := false |}.

(** A fault context whose program counter is [pc]. *)
Definition fault_at (pc : Z) : ucontext_t :=
  {| uc_mcontext :=
       {| arm_r0 := 100; arm_r1 := 101; arm_r2 := 102; arm_r3 := 103;
          arm_r4 := 104; arm_r5 := 105; arm_r6 := 106; arm_r7 := 107;
          arm_r8 := 108; arm_r9 := 109; arm_r10 := 110;
          arm_fp := 111; arm_ip := 112; arm_sp := 113; arm_lr := 114;
          arm_pc := pc |} |}.

(** Thirty distinct even addresses [0x1000, 0x1002, ...]: enough to fill
    the collector on every build. *)
Definition thirty_addresses : list Z :=
  map (fun i => 4096 + 2 * Z.of_nat i) (seq 0 30).

(** An unwind context that is just the core register file; the frame's
    instruction pointer is its [r15]. *)
#[global] Program Instance register_file_runtime : UnwindRuntime := {|
  _Unwind_Context := arm_reg -> Z;
  _Unwind_SetGR c r v := fun r' => if decide (r' = r) then v else c r';
  _Unwind_GetGR c r := c r;
  _Unwind_GetIP c := c REG_R15
|}.
Next Obligation. intros c r v. simpl. destruct (decide (r = r)); congruence. Qed.
Next Obligation. intros c r r' v Hne. simpl. destruct (decide (r' = r)); congruence. Qed.

(** The frame context in which every register holds [v]. *)
Definition frame_of (v : Z) : @_Unwind_Context register_file_runtime :=
  fun _ => v.

(** A cursor that carries its registers and the instruction pointers of the
    frames still above it; a step moves to the next of them. *)
Record list_cursor : Type := {
  cursor_regs : unw_regnum_t -> Z;
  cursor_callers : list Z
}.

#[global] Instance list_libunwind : Libunwind := {|
  unw_context_t := list_cursor;
  unw_cursor_t := list_cursor;
  unw_init_local c := c;
  unw_set_reg c r v :=
    {| cursor_regs := fun r' => if decide (r' = r) then v else cursor_regs c r';
       cursor_callers := cursor_callers c |};
  unw_get_reg c r := cursor_regs c r;
  unw_step c :=
    match cursor_callers c with
    | [] => (0, c)
    | ip :: callers =>
        (1, {| cursor_regs := fun r' =>
                 if decide (r' = UNW_REG_IP) then ip else cursor_regs c r';
               cursor_callers := callers |})
    end
|}.

(** The handler's own cursor, with [callers] above the faulting frame. *)
Definition cursor_with (callers : list Z) : list_cursor :=
  {| cursor_regs := fun _ => 0; cursor_callers := callers |}.

(** Forty distinct caller addresses: more frames than the collector holds. *)
Definition forty_callers : list Z :=
  map (fun i => 8192 + 4 * Z.of_nat i) (seq 0 40).

(** The collector filled to capacity. *)
Definition full_state (b : Build) : BacktraceState :=
  add_addresses b (BacktraceState_Init (fault_at 4096)) thirty_addresses.

(** A collector written out in full: 30 stored addresses. *)
Definition thirty_stored_state : BacktraceState :=
  {| signal_ucontext := fault_at 4096;
     address_skip_count := 3;
     address_count := 30;
     addresses := thirty_addresses |}.

(** The collector after a null first address and one more address. *)
Definition null_first_state (b : Build) : BacktraceState :=
  add_addresses b (BacktraceState_Init (fault_at 0)) [0; 4096].

(** The collector after a fault at address zero (a call through a null
    function pointer): the null program counter is its only entry. *)
Definition null_only_state (b : Build) : BacktraceState :=
  add_addresses b (BacktraceState_Init (fault_at 0)) [0].

(** The collector holding three distinct addresses. *)
Definition three_frames_state (b : Build) : BacktraceState :=
  add_addresses b (BacktraceState_Init (fault_at 4096)) [4096; 8192; 12288].

(** A loader that knows no module, and a demangler that rejects every
    name. *)
Definition no_module : Z -> option Dl_info := fun _ => None.
Definition no_demangling : string -> option string := fun _ => None.

(** A cursor stuck on one frame: every step succeeds and lands on the same
    instruction pointer. *)
Definition stuck_libunwind : Libunwind := {|
  unw_context_t := Z;
  unw_cursor_t := Z;
  unw_init_local c := c;
  unw_set_reg c r v := c;
  unw_get_reg c r := c;
  unw_step c := (1, c)
|}.

(** ** Machine-word facts *)

Lemma pointer_bits_cases b : pointer_bits b = 32 \/ pointer_bits b = 64.
Proof. unfold pointer_bits. destruct (target_arch_abi b); auto. Qed.

Lemma to_word_small b x : 0 <= x <= address_count_max -> to_word b x = x.
Proof.
  intros Hx. unfold to_word, address_count_max in *.
  apply Z.mod_small.
  destruct (pointer_bits_cases b) as [-> | ->]; lia.
Qed.

Lemma land_not_thumb_bit w ip :
  0 <= w -> 0 <= ip < 2 ^ w ->
  Z.land ip (Z.lnot thumb_bit mod 2 ^ w) = Z.ldiff ip thumb_bit.
Proof.
  intros Hw Hip. apply Z.bits_inj'. intros n Hn.
  rewrite Z.land_spec, Z.ldiff_spec.
  destruct (Z.ltb_spec n w) as [Hlt | Hge].
  - rewrite Z.mod_pow2_bits_low by lia. rewrite Z.lnot_spec by lia. reflexivity.
  - rewrite Z.mod_pow2_bits_high by lia.
    rewrite <- (Z.mod_small ip (2 ^ w)) by lia.
    rewrite Z.mod_pow2_bits_high by lia. reflexivity.
Qed.

Lemma ldiff_thumb_bit_odd ip :
  Z.testbit ip 0 = true -> Z.ldiff ip thumb_bit = ip - 1.
Proof.
  intros Hodd. rewrite Z.bit0_odd in Hodd.
  pose proof (Z.div2_odd ip) as Hip. rewrite Hodd in Hip. simpl Z.b2z in Hip.
  replace (ip - 1) with (2 * Z.div2 ip) by lia.
  rewrite Hip at 1.
  apply Z.bits_inj'. intros n Hn.
  rewrite Z.ldiff_spec. unfold thumb_bit.
  destruct (Z.eq_dec n 0) as [-> | Hne].
  - rewrite Z.testbit_odd_0, Z.testbit_even_0. reflexivity.
  - replace n with (Z.succ (n - 1)) by lia.
    rewrite Z.testbit_odd_succ, Z.testbit_even_succ by lia.
    replace (Z.testbit 1 (Z.succ (n - 1))) with false.
    + apply andb_true_r.
    + symmetry. apply (Z.bits_above_log2 1); simpl; lia.
Qed.

Lemma ldiff_thumb_bit_even ip :
  Z.testbit ip 0 = false -> Z.ldiff ip thumb_bit = ip.
Proof.
  intros Heven. apply Z.bits_inj'. intros n Hn.
  rewrite Z.ldiff_spec. unfold thumb_bit.
  destruct (Z.eq_dec n 0) as [-> | Hne].
  - rewrite Heven. reflexivity.
  - replace (Z.testbit 1 n) with false; [apply andb_true_r |].
    symmetry. apply (Z.bits_above_log2 1); simpl; lia.
Qed.

Lemma testbit_land_not_thumb_bit w ip :
  0 < w -> Z.testbit (Z.land ip (Z.lnot thumb_bit mod 2 ^ w)) 0 = false.
Proof.
  intros Hw. rewrite Z.land_spec, Z.mod_pow2_bits_low by lia.
  rewrite Z.lnot_spec by lia. apply andb_false_r.
Qed.

(** ** The collector: case analysis and invariant *)

Section CollectorFacts.

Variable b : Build.

(** The three ways a call ends: rejected, ignored, stored. *)
Lemma AddAddress_cases state ip :
  (address_count_max <= address_count state /\
     BacktraceState_AddAddress b state ip = (false, state)) \/
  (0 < address_count state < address_count_max /\
     (reset_thumb_bit b ip = 0 \/ reset_thumb_bit b ip = last_address state) /\
     BacktraceState_AddAddress b state ip = (true, state)) \/
  (address_count state < address_count_max /\
     (address_count state <= 0 \/
      (reset_thumb_bit b ip <> 0 /\ reset_thumb_bit b ip <> last_address state)) /\
     BacktraceState_AddAddress b state ip = (true, store_address b state (reset_thumb_bit b ip))).
Proof.
  unfold BacktraceState_AddAddress, last_address.
  rewrite Z.geb_leb, Z.gtb_ltb.
  destruct (Z.leb_spec address_count_max (address_count state)) as [Hfull | Hroom].
  { left. auto. }
  right.
  destruct (Z.ltb_spec 0 (address_count state)) as [Hpos | Hzero].
  - destruct (Z.eqb_spec (reset_thumb_bit b ip) 0) as [Hnull | Hnonnull].
    { left. auto with zarith. }
    destruct (Z.eqb_spec (reset_thumb_bit b ip)
                (addresses state !!! Z.to_nat (address_count state - 1)))
      as [Hdup | Hfresh].
    { left. auto with zarith. }
    right. auto.
  - right. auto.
Qed.

Lemma AddAddress_full state ip :
  address_count_max <= address_count state ->
  BacktraceState_AddAddress b state ip = (false, state).
Proof.
  intros Hfull.
  destruct (AddAddress_cases state ip) as [[_ H] | [[Hc _] | [Hc _]]];
    [exact H | lia | lia].
Qed.

Lemma AddAddress_room state ip :
  address_count state < address_count_max ->
  fst (BacktraceState_AddAddress b state ip) = true.
Proof.
  intros Hroom.
  destruct (AddAddress_cases state ip) as [[Hc _] | [[_ [_ H]] | [_ [_ H]]]];
    [lia | now rewrite H | now rewrite H].
Qed.

Lemma reset_thumb_bit_even ip :
  __thumb__ b = true -> Z.testbit (reset_thumb_bit b ip) 0 = false.
Proof.
  intros Hthumb. unfold reset_thumb_bit, to_word. rewrite Hthumb.
  apply testbit_land_not_thumb_bit.
  destruct (pointer_bits_cases b) as [-> | ->]; lia.
Qed.

Lemma reset_thumb_bit_no_thumb ip :
  __thumb__ b = false -> reset_thumb_bit b ip = ip.
Proof. intros Hthumb. unfold reset_thumb_bit. now rewrite Hthumb. Qed.

Lemma reset_thumb_bit_ldiff ip :
  __thumb__ b = true -> 0 <= ip < 2 ^ pointer_bits b ->
  reset_thumb_bit b ip = Z.ldiff ip thumb_bit.
Proof.
  intros Hthumb Hip. unfold reset_thumb_bit, to_word. rewrite Hthumb.
  apply land_not_thumb_bit; [| exact Hip].
  destruct (pointer_bits_cases b) as [-> | ->]; lia.
Qed.

Lemma reset_thumb_bit_0 : reset_thumb_bit b 0 = 0.
Proof. unfold reset_thumb_bit. destruct (__thumb__ b); reflexivity. Qed.

Lemma reset_thumb_bit_idem ip :
  reset_thumb_bit b (reset_thumb_bit b ip) = reset_thumb_bit b ip.
Proof.
  unfold reset_thumb_bit. destruct (__thumb__ b); [| reflexivity].
  now rewrite <- Z.land_assoc, Z.land_diag.
Qed.

Lemma state_ok_Init ucontext : state_ok b (BacktraceState_Init ucontext).
Proof.
  split; simpl.
  - unfold address_count_max. lia.
  - reflexivity.
  - intros i a Hi. simpl in Hi. lia.
Qed.

Lemma state_ok_store state ip :
  state_ok b state ->
  address_count state < address_count_max ->
  reset_thumb_bit b ip = ip ->
  state_ok b (store_address b state ip).
Proof.
  intros [Hcount Hlen Hthumb] Hroom Hip.
  assert (Hnext : to_word b (address_count state + 1) = address_count state + 1)
    by (apply to_word_small; lia).
  split; simpl; rewrite ?Hnext.
  - lia.
  - rewrite length_insert. exact Hlen.
  - intros i a Hi Hlook.
    destruct (decide (i = Z.to_nat (address_count state))) as [-> | Hne].
    + rewrite list_lookup_insert_eq in Hlook
        by (rewrite Hlen; unfold address_count_max in *; lia).
      injection Hlook as <-. exact Hip.
    + rewrite list_lookup_insert_ne in Hlook by congruence.
      apply (Hthumb i a); [lia | exact Hlook].
Qed.

Lemma state_ok_AddAddress state ip :
  state_ok b state -> state_ok b (snd (BacktraceState_AddAddress b state ip)).
Proof.
  intros Hok.
  destruct (AddAddress_cases state ip)
    as [[_ H] | [[_ [_ H]] | [Hroom [_ H]]]]; rewrite H; simpl; auto.
  apply state_ok_store; auto using reset_thumb_bit_idem.
Qed.

Lemma state_ok_decrement state :
  state_ok b state -> state_ok b (decrement_skip_count b state).
Proof. intros [Hcount Hlen Hthumb]. split; simpl; auto. Qed.

Lemma reachable_state_ok state : reachable b state -> state_ok b state.
Proof.
  induction 1;
    auto using state_ok_Init, state_ok_AddAddress, state_ok_decrement.
Qed.

Lemma reachable_add_addresses state ips :
  reachable b state -> reachable b (add_addresses b state ips).
Proof.
  revert state. induction ips as [| ip ips IH]; intros state Hr; simpl.
  - exact Hr.
  - apply IH. now constructor.
Qed.

(** Cells below the count survive every call. *)
Lemma AddAddress_keeps_stored state ip (i : nat) :
  (i < Z.to_nat (address_count state))%nat ->
  addresses (snd (BacktraceState_AddAddress b state ip)) !! i = addresses state !! i.
Proof.
  intros Hi.
  destruct (AddAddress_cases state ip)
    as [[_ H] | [[_ [_ H]] | [_ [_ H]]]]; rewrite H; simpl; auto.
  apply list_lookup_insert_ne. lia.
Qed.

(** The count never goes down, and goes up by one at most. *)
Lemma AddAddress_count state ip :
  state_ok b state ->
  address_count state <= address_count (snd (BacktraceState_AddAddress b state ip))
    <= address_count state + 1.
Proof.
  intros [Hcount _ _].
  destruct (AddAddress_cases state ip)
    as [[_ H] | [[_ [_ H]] | [Hroom [_ H]]]]; rewrite H; simpl; try lia.
  rewrite to_word_small by lia. lia.
Qed.

(** What a stored address looks like in the state. *)
Lemma store_address_lookup state ip :
  state_ok b state -> address_count state < address_count_max ->
  address_count (store_address b state ip) = address_count state + 1 /\
  addresses (store_address b state ip) !! Z.to_nat (address_count state) = Some ip.
Proof.
  intros [Hcount Hlen _] Hroom. simpl. split.
  - apply to_word_small. lia.
  - apply list_lookup_insert_eq. rewrite Hlen. unfold address_count_max in *. lia.
Qed.

(** In a reachable state the last stored address is one of the stored
    cells. *)
Lemma last_address_lookup state :
  state_ok b state -> 0 < address_count state ->
  addresses state !! Z.to_nat (address_count state - 1) = Some (last_address state).
Proof.
  intros [Hcount Hlen _] Hpos. unfold last_address.
  apply list_lookup_lookup_total_lt.
  rewrite Hlen. unfold address_count_max in *. lia.
Qed.

Lemma reset_thumb_bit_last state :
  state_ok b state -> 0 < address_count state ->
  reset_thumb_bit b (last_address state) = last_address state.
Proof.
  intros Hok Hpos.
  apply (ok_thumb b state Hok (Z.to_nat (address_count state - 1))).
  - lia.
  - now apply last_address_lookup.
Qed.

End CollectorFacts.

(** ** The collector: capacity, filters and result *)

(** C1: whatever sequence of [AddAddress] calls follows [Init], the count
    stays within the capacity of 30; and in a state whose count is 30 every
    further call returns [false] and hands back the very same state (count
    and stored entries included). *)
Theorem count_never_exceeds_capacity b ucontext ips :
  0 <= address_count (add_addresses b (BacktraceState_Init ucontext) ips)
    <= address_count_max /\
  (address_count (add_addresses b (BacktraceState_Init ucontext) ips)
     = address_count_max ->
   forall ip,
     BacktraceState_AddAddress b
       (add_addresses b (BacktraceState_Init ucontext) ips) ip
     = (false, add_addresses b (BacktraceState_Init ucontext) ips)).
Proof.
  assert (Hok : state_ok b (add_addresses b (BacktraceState_Init ucontext) ips)).
  { apply reachable_state_ok, reachable_add_addresses. constructor. }
  split.
  - exact (ok_count b _ Hok).
  - intros Hfull ip. apply AddAddress_full. lia.
Qed.

Lemma count_never_exceeds_capacity_witness :
  address_count (full_state build_arm64) = address_count_max /\
  BacktraceState_AddAddress build_arm64 (full_state build_arm64) 8192
    = (false, full_state build_arm64).
Proof.
  split.
  - vm_compute. reflexivity.
  - apply (proj2 (count_never_exceeds_capacity build_arm64 (fault_at 4096)
                    thirty_addresses)).
    vm_compute. reflexivity.
Defined.

(** C10: [AddAddress] returns [false] exactly when the count has reached
    the capacity at the time of the call, that is, the count never exceeding
    30, exactly when it equals 30; below 30 it returns [true] for every
    address, ignored ones included.  Nothing is assumed of the state. *)
Theorem AddAddress_fails_iff_full b state ip :
  (fst (BacktraceState_AddAddress b state ip) = false <->
     address_count_max <= address_count state) /\
  (address_count state <= address_count_max ->
     (fst (BacktraceState_AddAddress b state ip) = false <->
        address_count state = address_count_max)) /\
  (address_count state < address_count_max ->
     fst (BacktraceState_AddAddress b state ip) = true).
Proof.
  assert (Hiff : fst (BacktraceState_AddAddress b state ip) = false <->
                 address_count_max <= address_count state).
  { split.
    - intros Hfalse.
      destruct (Z.lt_ge_cases (address_count state) address_count_max)
        as [Hroom | Hfull]; [| exact Hfull].
      rewrite AddAddress_room in Hfalse by assumption. discriminate.
    - intros Hfull. rewrite AddAddress_full by exact Hfull. reflexivity. }
  split; [exact Hiff |]. split.
  - intros Hbound. rewrite Hiff. lia.
  - apply AddAddress_room.
Qed.

Lemma AddAddress_fails_iff_full_witness :
  fst (BacktraceState_AddAddress build_armv7_thumb thirty_stored_state 8192)
    = false /\
  fst (BacktraceState_AddAddress build_armv7_thumb
         (BacktraceState_Init (fault_at 4096)) 0) = true.
Proof.
  split.
  - apply (proj2 (proj1 (proj2 (AddAddress_fails_iff_full build_armv7_thumb
                                  thirty_stored_state 8192))
                    ltac:(simpl; unfold address_count_max; lia))).
    reflexivity.
  - apply (proj2 (proj2 (AddAddress_fails_iff_full build_armv7_thumb
                           (BacktraceState_Init (fault_at 4096)) 0))).
    reflexivity.
Defined.

(** C3, amended: in a state the program can build, holding at least one
    address and fewer than 30, submitting the last stored address again
    changes nothing and returns [true]; submitting a nonzero address that is
    stored further down and differs from the last one appends it: only the
    last entry is compared. *)
Theorem duplicate_filter_is_last_only b state ip :
  reachable b state ->
  0 < address_count state < address_count_max ->
  (ip = last_address state ->
     BacktraceState_AddAddress b state ip = (true, state)) /\
  (ip <> 0 -> ip <> last_address state ->
     forall j : nat,
       (j < Z.to_nat (address_count state - 1))%nat ->
       addresses state !! j = Some ip ->
       BacktraceState_AddAddress b state ip = (true, store_address b state ip) /\
       address_count (store_address b state ip) = address_count state + 1 /\
       addresses (store_address b state ip) !! Z.to_nat (address_count state)
         = Some ip).
Proof.
  intros Hreach Hcount.
  pose proof (reachable_state_ok b state Hreach) as Hok.
  split.
  - intros ->.
    destruct (AddAddress_cases b state (last_address state))
      as [[Hfull _] | [[_ [_ H]] | [_ [[Hzero | [_ Hne]] _]]]];
      [lia | exact H | lia |].
    rewrite reset_thumb_bit_last in Hne by (auto; lia). congruence.
  - intros Hnonnull Hdiff j Hj Hlook.
    assert (Hfix : reset_thumb_bit b ip = ip).
    { apply (ok_thumb b state Hok j); [lia | exact Hlook]. }
    split; [| apply store_address_lookup; [exact Hok | lia]].
    destruct (AddAddress_cases b state ip)
      as [[Hfull _] | [[_ [[Hnull | Hdup] _]] | [_ [_ H]]]];
      rewrite ?Hfix in *; [lia | congruence | congruence | exact H].
Qed.

Lemma duplicate_filter_is_last_only_witness :
  BacktraceState_AddAddress build_armv7_thumb
    (three_frames_state build_armv7_thumb) 12288
    = (true, three_frames_state build_armv7_thumb) /\
  address_count (snd (BacktraceState_AddAddress build_armv7_thumb
    (three_frames_state build_armv7_thumb) 4096)) = 4.
Proof.
  pose proof (reachable_add_addresses build_armv7_thumb
                (BacktraceState_Init (fault_at 4096)) [4096; 8192; 12288]
                (reachable_Init _ _)) as Hreach.
  assert (Hcount : 0 < address_count (three_frames_state build_armv7_thumb)
                     < address_count_max) by (vm_compute; split; reflexivity).
  split.
  - apply (proj1 (duplicate_filter_is_last_only build_armv7_thumb
                    (three_frames_state build_armv7_thumb) 12288 Hreach Hcount)).
    vm_compute. reflexivity.
  - assert (H4096 : 4096 <> 0) by lia.
    assert (Hlast : 4096 <> last_address (three_frames_state build_armv7_thumb))
      by (vm_compute; lia).
    destruct (proj2 (duplicate_filter_is_last_only build_armv7_thumb
                       (three_frames_state build_armv7_thumb) 4096 Hreach Hcount)
                H4096 Hlast 0%nat) as [Hadd [Hnext _]].
    + vm_compute. lia.
    + vm_compute. reflexivity.
    + rewrite Hadd. simpl snd. rewrite Hnext. vm_compute. reflexivity.
Defined.

(** C3 as stated fails: with the collector full the last address submitted
    again is rejected, not accepted; and a null first address submitted again
    after a different address is ignored, not appended. *)
Lemma duplicate_filter_counterexample :
  (reachable build_arm64 (full_state build_arm64) /\
   1 <= address_count (full_state build_arm64) /\
   BacktraceState_AddAddress build_arm64 (full_state build_arm64)
     (last_address (full_state build_arm64))
   = (false, full_state build_arm64)) /\
  (reachable build_arm64 (null_first_state build_arm64) /\
   addresses (null_first_state build_arm64) !! 0%nat = Some 0 /\
   last_address (null_first_state build_arm64) = 4096 /\
   BacktraceState_AddAddress build_arm64 (null_first_state build_arm64) 0
   = (true, null_first_state build_arm64)).
Proof.
  split; [split; [| split] | split; [| split; [| split]]].
  - apply reachable_add_addresses, reachable_Init.
  - vm_compute. discriminate.
  - vm_compute. reflexivity.
  - apply reachable_add_addresses, reachable_Init.
  - vm_compute. reflexivity.
  - vm_compute. reflexivity.
  - vm_compute. reflexivity.
Qed.

(** C4, amended: in a state the program can build, holding at least one
    address and fewer than 30, submitting address zero changes nothing and
    returns [true]. *)
Theorem null_address_ignored b state :
  reachable b state ->
  0 < address_count state < address_count_max ->
  BacktraceState_AddAddress b state 0 = (true, state).
Proof.
  intros Hreach Hcount.
  destruct (AddAddress_cases b state 0)
    as [[Hfull _] | [[_ [_ H]] | [_ [[Hzero | [Hne _]] _]]]];
    [lia | exact H | lia |].
  rewrite reset_thumb_bit_0 in Hne. congruence.
Qed.

Lemma null_address_ignored_witness :
  BacktraceState_AddAddress build_armv7_thumb
    (three_frames_state build_armv7_thumb) 0
  = (true, three_frames_state build_armv7_thumb).
Proof.
  apply (null_address_ignored build_armv7_thumb
           (three_frames_state build_armv7_thumb)).
  - apply reachable_add_addresses, reachable_Init.
  - vm_compute. split; reflexivity.
Defined.

(** C4 as stated fails: with the collector full, address zero is rejected
    like any other, so the call does not report success. *)
Lemma null_address_counterexample :
  reachable build_arm64 (full_state build_arm64) /\
  1 <= address_count (full_state build_arm64) /\
  BacktraceState_AddAddress build_arm64 (full_state build_arm64) 0
  = (false, full_state build_arm64).
Proof.
  split; [| split].
  - apply reachable_add_addresses, reachable_Init.
  - vm_compute. discriminate.
  - vm_compute. reflexivity.
Qed.

(** C5, amended: on a build compiled in Thumb mode ([__thumb__] defined),
    an address submitted with its low bit set goes
    through the call with that bit cleared: the call behaves as if the
    cleared address had been submitted (so the cleared value is what is
    compared with the previous entry), and when the address is stored the
    new cell holds the cleared value. *)
Theorem thumb_bit_is_reset b state ip :
  __thumb__ b = true ->
  Z.testbit ip 0 = true ->
  0 <= ip < 2 ^ pointer_bits b ->
  reachable b state ->
  reset_thumb_bit b ip = ip - 1 /\
  Z.testbit (ip - 1) 0 = false /\
  BacktraceState_AddAddress b state ip = BacktraceState_AddAddress b state (ip - 1) /\
  (forall state',
     BacktraceState_AddAddress b state ip = (true, state') ->
     address_count state' = address_count state + 1 ->
     addresses state' !! Z.to_nat (address_count state) = Some (ip - 1)).
Proof.
  intros Hthumb Hodd Hip Hreach.
  pose proof (reachable_state_ok b state Hreach) as Hok.
  assert (Hreset : reset_thumb_bit b ip = ip - 1).
  { rewrite reset_thumb_bit_ldiff by assumption. now apply ldiff_thumb_bit_odd. }
  assert (Hagain : reset_thumb_bit b (ip - 1) = ip - 1).
  { rewrite <- Hreset. apply reset_thumb_bit_idem. }
  split; [exact Hreset |]. split; [| split].
  - rewrite <- Hreset. exact (reset_thumb_bit_even b ip Hthumb).
  - unfold BacktraceState_AddAddress. rewrite Hreset, Hagain. reflexivity.
  - intros state' Hadd Hnext.
    destruct (AddAddress_cases b state ip)
      as [[_ H] | [[_ [_ H]] | [Hroom [_ H]]]]; rewrite H in Hadd.
    + discriminate.
    + injection Hadd as <-. lia.
    + injection Hadd as <-. rewrite Hreset.
      apply store_address_lookup; assumption.
Qed.

Lemma thumb_bit_is_reset_witness :
  addresses (snd (BacktraceState_AddAddress build_armv7_thumb
                    (three_frames_state build_armv7_thumb) 20481))
    !! 3%nat = Some 20480.
Proof.
  assert (Hthumb : __thumb__ build_armv7_thumb = true) by reflexivity.
  assert (Hodd : Z.testbit 20481 0 = true) by reflexivity.
  assert (Hip : 0 <= 20481 < 2 ^ pointer_bits build_armv7_thumb)
    by (split; [lia | reflexivity]).
  pose proof (reachable_add_addresses build_armv7_thumb
                (BacktraceState_Init (fault_at 4096)) [4096; 8192; 12288]
                (reachable_Init _ _)) as Hreach.
  destruct (thumb_bit_is_reset build_armv7_thumb
              (three_frames_state build_armv7_thumb) 20481
              Hthumb Hodd Hip Hreach) as [_ [_ [_ Hstored]]].
  apply (Hstored (snd (BacktraceState_AddAddress build_armv7_thumb
                         (three_frames_state build_armv7_thumb) 20481)));
    vm_compute; reflexivity.
Defined.

(** C5 as stated fails: a 32-bit ARM build compiled in ARM mode targets an
    architecture that tags code addresses, yet [__thumb__] is not defined
    and the bit stays: 0x5001 is stored as submitted, and 0x3001 submitted
    after 0x3000 is appended, not taken for a repeat. *)
Lemma thumb_bit_counterexample :
  __arm__ build_armv7_arm = true /\
  __thumb__ build_armv7_arm = false /\
  stored_addresses (three_frames_state build_armv7_arm)
    = [4096; 8192; 12288] /\
  stored_addresses
    (snd (BacktraceState_AddAddress build_armv7_arm
            (three_frames_state build_armv7_arm) 20481))
    = [4096; 8192; 12288; 20481] /\
  Z.testbit 20481 0 = true /\
  stored_addresses
    (snd (BacktraceState_AddAddress build_armv7_arm
            (three_frames_state build_armv7_arm) 12289))
    = [4096; 8192; 12288; 12289].
Proof.
  split; [reflexivity |]. split; [reflexivity |].
  split; [vm_compute; reflexivity |].
  split; [vm_compute; reflexivity |].
  split; [reflexivity |].
  vm_compute. reflexivity.
Qed.

(** ** The callback strategies *)

Section UnwindBacktraceFacts.

Variable b : Build.
Context {runtime : UnwindRuntime}.

Lemma ProcessRegisters_GetGR unwind_context state r :
  _Unwind_GetGR (fst (ProcessRegisters b unwind_context state)) r
  = sigcontext_reg (uc_mcontext (signal_ucontext state)) r.
Proof.
  unfold ProcessRegisters. cbn [fst].
  destruct r; cbn [sigcontext_reg];
    repeat (rewrite _Unwind_GetGR_SetGR_ne by discriminate);
    apply _Unwind_GetGR_SetGR_eq.
Qed.

Lemma AddAddress_first state ip :
  state_ok b state -> address_count state = 0 ->
  BacktraceState_AddAddress b state ip
    = (true, store_address b state (reset_thumb_bit b ip)) /\
  address_count (store_address b state (reset_thumb_bit b ip)) = 1 /\
  addresses (store_address b state (reset_thumb_bit b ip)) !! 0%nat
    = Some (reset_thumb_bit b ip).
Proof.
  intros Hok Hzero.
  assert (Hroom : address_count state < address_count_max)
    by (rewrite Hzero; reflexivity).
  destruct (store_address_lookup b state (reset_thumb_bit b ip) Hok Hroom)
    as [Hnext Hlook].
  rewrite Hzero in Hnext, Hlook.
  split; [| split; [exact Hnext | exact Hlook]].
  destruct (AddAddress_cases b state ip)
    as [[Hfull _] | [[Hpos _] | [_ [_ H]]]]; [lia | lia | exact H].
Qed.

(** C2, amended: on a state with no address yet, the callback answers
    [_URC_NO_REASON], leaves every core register of the unwind context equal
    to the fault context's, and leaves exactly one address in the state: the
    fault context's program counter after [reset_thumb_bit], that is the
    program counter itself unless the build is Thumb.  The state it leaves
    is the same whatever unwind context it was handed, so nothing of the
    frame's own registers goes into it. *)
Theorem registers_callback_first_invocation state unwind_context :
  reachable b state ->
  address_count state = 0 ->
  fst (fst (UnwindBacktraceWithRegistersCallback b unwind_context state))
    = _URC_NO_REASON /\
  (forall r,
     _Unwind_GetGR
       (snd (fst (UnwindBacktraceWithRegistersCallback b unwind_context state))) r
     = sigcontext_reg (uc_mcontext (signal_ucontext state)) r) /\
  address_count (snd (UnwindBacktraceWithRegistersCallback b unwind_context state))
    = 1 /\
  addresses (snd (UnwindBacktraceWithRegistersCallback b unwind_context state))
    !! 0%nat
    = Some (reset_thumb_bit b (arm_pc (uc_mcontext (signal_ucontext state)))) /\
  (__thumb__ b = false ->
   addresses (snd (UnwindBacktraceWithRegistersCallback b unwind_context state))
     !! 0%nat
     = Some (arm_pc (uc_mcontext (signal_ucontext state)))) /\
  (forall other_context,
     snd (UnwindBacktraceWithRegistersCallback b other_context state)
     = snd (UnwindBacktraceWithRegistersCallback b unwind_context state)).
Proof.
  intros Hreach Hzero.
  pose proof (reachable_state_ok b state Hreach) as Hok.
  destruct (AddAddress_first state
              (arm_pc (uc_mcontext (signal_ucontext state))) Hok Hzero)
    as [Hadd [Hone Hfirst]].
  assert (Hcall : forall c,
    UnwindBacktraceWithRegistersCallback b c state
    = (_URC_NO_REASON, fst (ProcessRegisters b c state),
       store_address b state
         (reset_thumb_bit b (arm_pc (uc_mcontext (signal_ucontext state)))))).
  { intros c. unfold UnwindBacktraceWithRegistersCallback.
    rewrite Hzero. cbn [Z.eqb].
    unfold ProcessRegisters. rewrite Hadd. reflexivity. }
  rewrite Hcall. cbn [fst snd].
  split; [reflexivity |].
  split; [intros r; apply ProcessRegisters_GetGR |].
  split; [exact Hone |].
  split; [exact Hfirst |].
  split.
  - intros Hthumb. rewrite Hfirst.
    now rewrite reset_thumb_bit_no_thumb.
  - intros other. rewrite Hcall. reflexivity.
Qed.

(** The skipping callback on a pending skip counter. *)
Lemma skipping_callback_skip unwind_context state :
  0 < address_skip_count state <= address_count_max ->
  UnwindBacktraceWithSkippingCallback b unwind_context state
  = (_URC_NO_REASON, with_skip_count state (address_skip_count state - 1)).
Proof.
  intros Hskip. unfold UnwindBacktraceWithSkippingCallback.
  rewrite Z.gtb_ltb.
  destruct (Z.ltb_spec 0 (address_skip_count state)) as [_ | Hle]; [| lia].
  unfold decrement_skip_count, with_skip_count.
  rewrite to_word_small by lia. reflexivity.
Qed.

(** The skipping callback once the counter is zero, on an empty collector. *)
Lemma skipping_callback_first_add unwind_context state :
  state_ok b state -> address_skip_count state = 0 -> address_count state = 0 ->
  UnwindBacktraceWithSkippingCallback b unwind_context state
  = (_URC_NO_REASON,
     store_address b state (reset_thumb_bit b (_Unwind_GetIP unwind_context))).
Proof.
  intros Hok Hskip Hzero. unfold UnwindBacktraceWithSkippingCallback.
  rewrite Hskip. cbn [Z.gtb Z.compare].
  destruct (AddAddress_first state (_Unwind_GetIP unwind_context) Hok Hzero)
    as [-> _].
  reflexivity.
Qed.

(** C6: on a freshly initialised state (skip counter 3), whatever the first
    three frame contexts are, each of the first three invocations answers
    [_URC_NO_REASON] and only lowers the skip counter (3 to 2 to 1 to 0; the
    count stays 0 and the array untouched); the fourth invocation is the
    first to reach the collector, which stores that frame's instruction
    pointer as the first address. *)
Theorem skipping_callback_skips ucontext frames frame :
  length frames = Z.to_nat (address_skip_count (BacktraceState_Init ucontext)) ->
  skipping_invocations b (frames ++ [frame]) (BacktraceState_Init ucontext)
  = [ (_URC_NO_REASON, with_skip_count (BacktraceState_Init ucontext) 2);
      (_URC_NO_REASON, with_skip_count (BacktraceState_Init ucontext) 1);
      (_URC_NO_REASON, with_skip_count (BacktraceState_Init ucontext) 0);
      (_URC_NO_REASON,
       store_address b (with_skip_count (BacktraceState_Init ucontext) 0)
         (reset_thumb_bit b (_Unwind_GetIP frame))) ] /\
  address_count
    (store_address b (with_skip_count (BacktraceState_Init ucontext) 0)
       (reset_thumb_bit b (_Unwind_GetIP frame))) = 1 /\
  addresses
    (store_address b (with_skip_count (BacktraceState_Init ucontext) 0)
       (reset_thumb_bit b (_Unwind_GetIP frame))) !! 0%nat
  = Some (reset_thumb_bit b (_Unwind_GetIP frame)).
Proof.
  intros Hlen.
  destruct frames as [| f1 [| f2 [| f3 [| f4 frames]]]]; try discriminate Hlen.
  assert (Hok : state_ok b (with_skip_count (BacktraceState_Init ucontext) 0)).
  { destruct (state_ok_Init b ucontext) as [Hc Hl Ht]. split; assumption. }
  split.
  - cbn [app skipping_invocations].
    rewrite (skipping_callback_skip f1) by (cbn; unfold address_count_max; lia).
    cbn [snd].
    rewrite (skipping_callback_skip f2) by (cbn; unfold address_count_max; lia).
    cbn [snd].
    rewrite (skipping_callback_skip f3) by (cbn; unfold address_count_max; lia).
    cbn [snd].
    rewrite (skipping_callback_first_add frame) by (reflexivity || exact Hok).
    reflexivity.
  - destruct (AddAddress_first (with_skip_count (BacktraceState_Init ucontext) 0)
                (_Unwind_GetIP frame) Hok eq_refl) as [_ [Hone Hfirst]].
    split; [exact Hone | exact Hfirst].
Qed.

End UnwindBacktraceFacts.

Lemma registers_callback_first_invocation_witness :
  address_count
    (snd (UnwindBacktraceWithRegistersCallback build_armv7_arm
            (frame_of 7) (BacktraceState_Init (fault_at 4097)))) = 1 /\
  addresses
    (snd (UnwindBacktraceWithRegistersCallback build_armv7_arm
            (frame_of 7) (BacktraceState_Init (fault_at 4097)))) !! 0%nat
  = Some 4097.
Proof.
  destruct (registers_callback_first_invocation build_armv7_arm
              (BacktraceState_Init (fault_at 4097)) (frame_of 7)
              (reachable_Init _ _) eq_refl)
    as [_ [_ [Hone [_ [Hpc _]]]]].
  split; [exact Hone | exact (Hpc eq_refl)].
Defined.

(** C2 as stated fails on a Thumb build: from a fault context whose program
    counter is 0x1001 the first invocation stores 0x1000. *)
Lemma registers_callback_counterexample :
  __arm__ build_armv7_thumb = true /\
  address_count (BacktraceState_Init (fault_at 4097)) = 0 /\
  arm_pc (uc_mcontext (signal_ucontext (BacktraceState_Init (fault_at 4097))))
    = 4097 /\
  addresses
    (snd (UnwindBacktraceWithRegistersCallback build_armv7_thumb
            (frame_of 7) (BacktraceState_Init (fault_at 4097)))) !! 0%nat
  = Some 4096 /\
  addresses
    (snd (UnwindBacktraceWithRegistersCallback build_armv7_thumb
            (frame_of 7) (BacktraceState_Init (fault_at 4097)))) !! 0%nat
  <> Some (arm_pc (uc_mcontext
             (signal_ucontext (BacktraceState_Init (fault_at 4097))))).
Proof.
  split; [reflexivity |]. split; [reflexivity |]. split; [reflexivity |].
  split; [vm_compute; reflexivity | vm_compute; discriminate].
Qed.

Lemma skipping_callback_skips_witness :
  map fst (skipping_invocations build_arm64
             ([frame_of 11; frame_of 22; frame_of 33] ++ [frame_of 44])
             (BacktraceState_Init (fault_at 4096)))
  = [_URC_NO_REASON; _URC_NO_REASON; _URC_NO_REASON; _URC_NO_REASON] /\
  map (fun r => address_count (snd r))
    (skipping_invocations build_arm64
       ([frame_of 11; frame_of 22; frame_of 33] ++ [frame_of 44])
       (BacktraceState_Init (fault_at 4096)))
  = [0; 0; 0; 1].
Proof.
  destruct (skipping_callback_skips build_arm64 (fault_at 4096)
              [frame_of 11; frame_of 22; frame_of 33] (frame_of 44) eq_refl)
    as [Hrun _].
  rewrite Hrun. split; vm_compute; reflexivity.
Defined.

(** ** The cursor walk *)

Section LibunwindFacts.

Variable b : Build.
Context {libunwind : Libunwind}.

(** The loop against the list of frames the cursor yields: it ends with the
    state [add_until_rejected] describes, as soon as the fuel covers one
    iteration per frame and one more for the step that ends the walk. *)
Lemma unwind_frames_unwinds c ips c' :
  unwinds c ips c' ->
  forall state fuel,
    fst (unw_step c') <= 0 \/ fst (add_until_rejected b state ips) = false ->
    (length ips < fuel)%nat ->
    unwind_frames b fuel c state = Some (snd (add_until_rejected b state ips)).
Proof.
  induction 1 as [c | c ips c' Hstep Hrest IH]; intros state fuel Hstop Hfuel.
  - destruct fuel as [| fuel]; [cbn in Hfuel; lia |].
    destruct Hstop as [Hend | Hrej]; [| discriminate Hrej].
    cbn [unwind_frames add_until_rejected snd].
    destruct (unw_step c) as [result cursor]. cbn [fst] in Hend.
    rewrite Z.gtb_ltb.
    destruct (Z.ltb_spec 0 result) as [Hpos | _]; [lia | reflexivity].
  - destruct fuel as [| fuel]; [cbn in Hfuel; lia |].
    cbn [length] in Hfuel.
    cbn [unwind_frames add_until_rejected].
    cbn [add_until_rejected] in Hstop.
    destruct (unw_step c) as [result cursor]. cbn [fst snd] in *.
    rewrite Z.gtb_ltb.
    destruct (Z.ltb_spec 0 result) as [_ | Hle]; [| lia].
    destruct (BacktraceState_AddAddress b state (unw_get_reg cursor UNW_REG_IP))
      as [ok state1].
    destruct ok; cbn [negb].
    + apply IH; [exact Hstop | lia].
    + reflexivity.
Qed.

Lemma add_until_rejected_keeps_stored ips :
  forall state (i : nat),
    state_ok b state ->
    (i < Z.to_nat (address_count state))%nat ->
    addresses (snd (add_until_rejected b state ips)) !! i = addresses state !! i.
Proof.
  induction ips as [| ip ips IH]; intros state i Hok Hi; [reflexivity |].
  cbn [add_until_rejected].
  pose proof (AddAddress_keeps_stored b state ip i Hi) as Hkeep.
  pose proof (AddAddress_count b state ip Hok) as Hgrow.
  pose proof (state_ok_AddAddress b state ip Hok) as Hok1.
  destruct (BacktraceState_AddAddress b state ip) as [ok state1].
  cbn [snd] in *.
  destruct ok; cbn [snd]; [| exact Hkeep].
  rewrite IH; [exact Hkeep | exact Hok1 | lia].
Qed.

(** C7: the walk first hands the fault context's program counter to the
    collector, before any step of the cursor (on a fresh state it becomes
    entry 0 and stays there); then, if the seeded cursor yields the frames
    [ips] and after them either reports no further frame or the collector
    has rejected an insertion, the walk ends, and it ends in the state
    reached by adding [ips] in order through the collector up to the first
    rejected insertion. *)
Theorem libunwind_walk unw_context state ips c_end fuel :
  unwinds
    (set_registers (unw_init_local unw_context)
       (uc_mcontext (signal_ucontext state)))
    ips c_end ->
  fst (unw_step c_end) <= 0 \/
  fst (add_until_rejected b
         (snd (BacktraceState_AddAddress b state
                 (arm_pc (uc_mcontext (signal_ucontext state))))) ips) = false ->
  (length ips < fuel)%nat ->
  LibunwindWithRegisters b fuel unw_context state
  = Some (snd (add_until_rejected b
                 (snd (BacktraceState_AddAddress b state
                         (arm_pc (uc_mcontext (signal_ucontext state))))) ips)) /\
  (reachable b state -> address_count state = 0 ->
   addresses
     (snd (add_until_rejected b
             (snd (BacktraceState_AddAddress b state
                     (arm_pc (uc_mcontext (signal_ucontext state))))) ips))
     !! 0%nat
   = Some (reset_thumb_bit b (arm_pc (uc_mcontext (signal_ucontext state))))).
Proof.
  intros Hwalk Hstop Hfuel. split.
  - unfold LibunwindWithRegisters.
    now apply (unwind_frames_unwinds _ ips c_end).
  - intros Hreach Hzero.
    pose proof (reachable_state_ok b state Hreach) as Hok.
    destruct (AddAddress_first b state
                (arm_pc (uc_mcontext (signal_ucontext state))) Hok Hzero)
      as [Hadd [Hone Hfirst]].
    pose proof (state_ok_AddAddress b state
                  (arm_pc (uc_mcontext (signal_ucontext state))) Hok) as Hok1.
    rewrite Hadd in Hok1 |- *. cbn [snd] in Hok1 |- *.
    rewrite add_until_rejected_keeps_stored.
    + exact Hfirst.
    + exact Hok1.
    + rewrite Hone. cbn. lia.
Qed.

End LibunwindFacts.

Lemma libunwind_walk_witness :
  addresses <$>
    LibunwindWithRegisters build_armv7_thumb 3 (cursor_with [8193; 12288])
      (BacktraceState_Init (fault_at 4096))
  = Some ([4096; 8192; 12288] ++ replicate 27 0).
Proof.
  assert (Hwalk :
    unwinds
      (set_registers (unw_init_local (cursor_with [8193; 12288]))
         (uc_mcontext (signal_ucontext (BacktraceState_Init (fault_at 4096)))))
      [8193; 12288]
      (snd (unw_step (snd (unw_step
         (set_registers (unw_init_local (cursor_with [8193; 12288]))
            (uc_mcontext
               (signal_ucontext (BacktraceState_Init (fault_at 4096)))))))))).
  { refine (unwinds_cons _ [12288] _ _ _); [reflexivity |].
    refine (unwinds_cons _ [] _ _ _); [reflexivity |].
    apply unwinds_nil. }
  destruct (@libunwind_walk build_armv7_thumb list_libunwind
              (cursor_with [8193; 12288])
              (BacktraceState_Init (fault_at 4096)) [8193; 12288] _ 3
              Hwalk (or_introl (Z.le_refl 0)) (le_n 3)) as [Hrun _].
  rewrite Hrun. vm_compute. reflexivity.
Defined.

(** On a stack of forty callers the walk ends in its thirtieth iteration:
    the fault address and twenty-nine callers fill the collector, the
    thirtieth caller is rejected and the loop breaks with ten frames left
    unvisited. *)
Example cursor_walk_stops_when_full :
  address_count <$>
    LibunwindWithRegisters build_armv7_arm 30 (cursor_with forty_callers)
      (BacktraceState_Init (fault_at 4096)) = Some 30 /\
  LibunwindWithRegisters build_armv7_arm 29 (cursor_with forty_callers)
    (BacktraceState_Init (fault_at 4096)) = None.
Proof. split; vm_compute; reflexivity. Qed.

(** ** The symbolizer *)

Section CollectorNullFacts.

Variable b : Build.

(** Only the first stored address can be null. *)
Lemma reachable_nonnull_after_first state :
  reachable b state ->
  forall (i : nat) a,
    (0 < i < Z.to_nat (address_count state))%nat ->
    addresses state !! i = Some a -> a <> 0.
Proof.
  induction 1 as [ucontext | state ip Hreach IH | state Hreach IH Hskip].
  - intros i a Hi. cbn in Hi. lia.
  - pose proof (reachable_state_ok b state Hreach) as Hok.
    pose proof (ok_count b state Hok) as Hcount.
    destruct (AddAddress_cases b state ip)
      as [[_ H] | [[_ [_ H]] | [Hroom [Hfresh H]]]];
      rewrite H; cbn [snd]; try exact IH.
    intros i a Hi Hlook.
    destruct (store_address_lookup b state (reset_thumb_bit b ip) Hok Hroom)
      as [Hnext Hnew].
    rewrite Hnext in Hi.
    destruct (decide (i = Z.to_nat (address_count state))) as [-> | Hne].
    + rewrite Hnew in Hlook. injection Hlook as <-.
      destruct Hfresh as [Hzero | [Hnonnull _]]; [lia | exact Hnonnull].
    + cbn [store_address addresses] in Hlook.
      rewrite list_lookup_insert_ne in Hlook by congruence.
      apply (IH i a); [lia | exact Hlook].
  - exact IH.
Qed.

Lemma add_addresses_keeps_stored ips :
  forall state (i : nat),
    state_ok b state ->
    (i < Z.to_nat (address_count state))%nat ->
    addresses (add_addresses b state ips) !! i = addresses state !! i /\
    address_count state <= address_count (add_addresses b state ips).
Proof.
  induction ips as [| ip ips IH]; intros state i Hok Hi.
  - cbn. split; [reflexivity | lia].
  - cbn [add_addresses fold_left].
    pose proof (AddAddress_keeps_stored b state ip i Hi) as Hkeep.
    pose proof (AddAddress_count b state ip Hok) as Hgrow.
    pose proof (state_ok_AddAddress b state ip Hok) as Hok1.
    destruct (IH (snd (BacktraceState_AddAddress b state ip)) i Hok1)
      as [Hrest Hmono]; [lia |].
    unfold add_addresses in Hrest, Hmono.
    rewrite Hrest, Hkeep. split; [reflexivity | lia].
Qed.

End CollectorNullFacts.

Section SymbolizerFacts.

Variable b : Build.
Variable dladdr : Z -> option Dl_info.
Variable __cxa_demangle : string -> option string.

(** A null address stops the loop at its assertion, before anything is
    written for that frame. *)
Lemma print_frames_null remaining frame_index state :
  addresses state !!! Z.to_nat frame_index = 0 ->
  print_frames b dladdr __cxa_demangle (S remaining) frame_index state
  = ([], assertion_failed).
Proof. intros Hnull. cbn [print_frames]. rewrite Hnull. reflexivity. Qed.

(** Without a null address the loop runs to its end and writes one line per
    frame. *)
Lemma print_frames_nonnull state remaining :
  forall frame_index,
    0 <= frame_index ->
    (forall k : nat, (k < remaining)%nat ->
       addresses state !!! Z.to_nat (frame_index + Z.of_nat k) <> 0) ->
    snd (print_frames b dladdr __cxa_demangle remaining frame_index state)
      = returns /\
    (forall k : nat, (k < remaining)%nat ->
       fst (print_frames b dladdr __cxa_demangle remaining frame_index state) !! k
       = Some (print_frame b dladdr __cxa_demangle
                 (frame_index + Z.of_nat k)
                 (addresses state !!! Z.to_nat (frame_index + Z.of_nat k)))).
Proof.
  induction remaining as [| remaining IH]; intros frame_index Hidx Hnonnull.
  - split; [reflexivity | intros k Hk; lia].
  - cbn [print_frames].
    pose proof (Hnonnull 0%nat ltac:(lia)) as Hhere.
    rewrite Z.add_0_r in Hhere.
    destruct (Z.eqb_spec (addresses state !!! Z.to_nat frame_index) 0)
      as [Hnull | _]; [contradiction |].
    destruct (IH (frame_index + 1)) as [Hret Hlines]; [lia | |].
    { intros k Hk.
      replace (frame_index + 1 + Z.of_nat k)
        with (frame_index + Z.of_nat (S k)) by lia.
      apply Hnonnull. lia. }
    destruct (print_frames b dladdr __cxa_demangle remaining (frame_index + 1) state)
      as [lines t].
    cbn [fst snd] in *. split; [exact Hret |].
    intros [| k] Hk.
    + rewrite Z.add_0_r. reflexivity.
    + cbn [lookup list_lookup]. rewrite Hlines by lia.
      replace (frame_index + 1 + Z.of_nat k)
        with (frame_index + Z.of_nat (S k)) by lia.
      reflexivity.
Qed.

(** A resolved frame: address 0x1234 inside a module loaded at 0x1000 whose
    nearest symbol is [main]. *)
Example print_frame_resolved :
  print_frame build_arm64
    (fun _ => Some {| dli_fname := Some "a.out"; dli_fbase := 4096;
                      dli_sname := Some "main"; dli_saddr := 4608 |})
    no_demangling 7 4660
  = String.append "  #07:  0x234  main" newline.
Proof. vm_compute. reflexivity. Qed.

(** The line of a frame whose module lookup fails. *)
Lemma print_frame_lookup_miss frame_index address :
  dladdr address = None ->
  __cxa_demangle "" = None ->
  print_frame b dladdr __cxa_demangle frame_index address
  = printf_frame frame_index (to_word b (address - 0)) "".
Proof.
  intros Hmiss Hplain. unfold print_frame.
  rewrite Hmiss, Hplain. reflexivity.
Qed.

(** X23: in a backtrace the program can build whose first address
    is not null, [PrintBacktrace] runs to its end whatever the lookups
    answer, and every address whose module lookup fails is rendered as a
    line with an empty symbol name and, for relative address, the address
    minus a null base (the address itself when it fits the machine word).
    The demangler is taken to return [NULL] on the empty name. *)
Theorem lookup_miss_is_rendered state (i : nat) :
  reachable b state ->
  __cxa_demangle "" = None ->
  addresses state !!! 0%nat <> 0 ->
  (i < Z.to_nat (address_count state))%nat ->
  dladdr (addresses state !!! i) = None ->
  snd (PrintBacktrace b dladdr __cxa_demangle state) = returns /\
  fst (PrintBacktrace b dladdr __cxa_demangle state) !! i
    = Some (printf_frame (Z.of_nat i) (to_word b (addresses state !!! i - 0)) "") /\
  (0 <= addresses state !!! i < 2 ^ pointer_bits b ->
   to_word b (addresses state !!! i - 0) = addresses state !!! i).
Proof.
  intros Hreach Hplain Hfirst Hi Hmiss.
  pose proof (reachable_state_ok b state Hreach) as [Hcount Hlen _].
  assert (Hnonnull : forall k : nat,
            (k < Z.to_nat (address_count state))%nat ->
            addresses state !!! Z.to_nat (0 + Z.of_nat k) <> 0).
  { intros k Hk. rewrite Z.add_0_l, Nat2Z.id.
    destruct k as [| k]; [exact Hfirst |].
    assert (Hlook : addresses state !! S k = Some (addresses state !!! S k)).
    { apply list_lookup_lookup_total_lt. rewrite Hlen.
      unfold address_count_max in *. lia. }
    apply (reachable_nonnull_after_first b state Hreach (S k) _); [lia | exact Hlook]. }
  destruct (print_frames_nonnull state (Z.to_nat (address_count state)) 0
              (Z.le_refl 0) Hnonnull) as [Hret Hlines].
  unfold PrintBacktrace.
  split; [exact Hret |]. split.
  - rewrite (Hlines i Hi). rewrite Z.add_0_l, Nat2Z.id.
    now rewrite print_frame_lookup_miss.
  - intros Hfit. unfold to_word. rewrite Z.sub_0_r. now apply Z.mod_small.
Qed.

(** C9: on a freshly initialised state, address zero is stored and counted
    (the null filter needs a previous address); and whatever is added
    afterwards, [PrintBacktrace] stops at its assertion on that first entry
    without writing a line. *)
Theorem null_first_address_is_stored ucontext ips :
  BacktraceState_AddAddress b (BacktraceState_Init ucontext) 0
    = (true, store_address b (BacktraceState_Init ucontext) 0) /\
  address_count (store_address b (BacktraceState_Init ucontext) 0) = 1 /\
  addresses (store_address b (BacktraceState_Init ucontext) 0) !! 0%nat = Some 0 /\
  PrintBacktrace b dladdr __cxa_demangle
    (add_addresses b (store_address b (BacktraceState_Init ucontext) 0) ips)
  = ([], assertion_failed).
Proof.
  destruct (AddAddress_first b (BacktraceState_Init ucontext) 0
              (state_ok_Init b ucontext) eq_refl) as [Hadd [Hone Hfirst]].
  rewrite reset_thumb_bit_0 in Hadd, Hone, Hfirst.
  split; [exact Hadd |]. split; [exact Hone |]. split; [exact Hfirst |].
  assert (Hok : state_ok b (store_address b (BacktraceState_Init ucontext) 0)).
  { pose proof (state_ok_AddAddress b (BacktraceState_Init ucontext) 0
                  (state_ok_Init b ucontext)) as H.
    now rewrite Hadd in H. }
  destruct (add_addresses_keeps_stored b ips
              (store_address b (BacktraceState_Init ucontext) 0) 0%nat Hok)
    as [Hkeep Hmono]; [rewrite Hone; cbn; lia |].
  rewrite Hfirst in Hkeep. rewrite Hone in Hmono.
  unfold PrintBacktrace.
  destruct (Z.to_nat (address_count
              (add_addresses b (store_address b (BacktraceState_Init ucontext) 0) ips)))
    as [| remaining] eqn:Hn; [lia |].
  apply print_frames_null.
  now apply list_lookup_total_correct.
Qed.

End SymbolizerFacts.

Lemma lookup_miss_is_rendered_witness :
  fst (PrintBacktrace build_armv7_thumb no_module no_demangling
         (three_frames_state build_armv7_thumb)) !! 1%nat
  = Some (String.append "  #01:  0x2000  " newline).
Proof.
  destruct (lookup_miss_is_rendered build_armv7_thumb no_module no_demangling
              (three_frames_state build_armv7_thumb) 1
              (reachable_add_addresses _ _ _ (reachable_Init _ _))
              eq_refl) as [_ [Hline _]].
  - vm_compute. lia.
  - vm_compute. lia.
  - reflexivity.
  - rewrite Hline. vm_compute. reflexivity.
Defined.

(** C8: the code at the failing input.  After a fault at address zero the
    only collected address is null ([AddAddress] filters null addresses
    only behind a first one); no module owns it; and [PrintBacktrace],
    instead of rendering a line with an empty name, fails its own
    [assert(address)] before any lookup and prints nothing. *)
Lemma print_aborts_on_null_fault_address :
  reachable build_armv7_thumb (null_only_state build_armv7_thumb) /\
  address_count (null_only_state build_armv7_thumb) = 1 /\
  addresses (null_only_state build_armv7_thumb) !! 0%nat = Some 0 /\
  no_module 0 = None /\
  PrintBacktrace build_armv7_thumb no_module no_demangling
    (null_only_state build_armv7_thumb)
  = ([], assertion_failed).
Proof.
  split; [apply reachable_add_addresses, reachable_Init |].
  split; [vm_compute; reflexivity |].
  split; [vm_compute; reflexivity |].
  split; [reflexivity |].
  vm_compute. reflexivity.
Qed.

(** ** The collector as a sequence of stored addresses *)

Section StoredAddressesFacts.

Variable b : Build.

Lemma stored_addresses_length state :
  state_ok b state ->
  length (stored_addresses state) = Z.to_nat (address_count state).
Proof.
  intros [Hcount Hlen _]. unfold stored_addresses.
  apply length_take_le. rewrite Hlen. unfold address_count_max in *. lia.
Qed.

Lemma stored_addresses_lookup state (i : nat) :
  (i < Z.to_nat (address_count state))%nat ->
  stored_addresses state !! i = addresses state !! i.
Proof. intros Hi. unfold stored_addresses. now apply lookup_take_lt. Qed.

Lemma stored_addresses_store state ip :
  state_ok b state -> address_count state < address_count_max ->
  stored_addresses (store_address b state ip) = stored_addresses state ++ [ip].
Proof.
  intros Hok Hroom.
  destruct (store_address_lookup b state ip Hok Hroom) as [Hnext Hnew].
  destruct Hok as [Hcount Hlen _].
  unfold stored_addresses. rewrite Hnext.
  replace (Z.to_nat (address_count state + 1))
    with (S (Z.to_nat (address_count state))) by lia.
  rewrite (take_S_r _ _ ip) by exact Hnew.
  cbn [store_address addresses]. now rewrite take_insert_ge by lia.
Qed.

(** A call leaves the stored sequence alone or appends one address. *)
Lemma stored_addresses_AddAddress state ip :
  state_ok b state ->
  stored_addresses (snd (BacktraceState_AddAddress b state ip))
    = stored_addresses state \/
  (address_count state < address_count_max /\
   stored_addresses (snd (BacktraceState_AddAddress b state ip))
     = stored_addresses state ++ [reset_thumb_bit b ip]).
Proof.
  intros Hok.
  destruct (AddAddress_cases b state ip)
    as [[_ H] | [[_ [_ H]] | [Hroom [_ H]]]]; rewrite H; cbn [snd]; auto.
  right. split; [exact Hroom | now apply stored_addresses_store].
Qed.

Lemma add_addresses_snoc state ips ip :
  add_addresses b state (ips ++ [ip])
  = snd (BacktraceState_AddAddress b (add_addresses b state ips) ip).
Proof. unfold add_addresses. now rewrite fold_left_app. Qed.

Lemma state_ok_add_addresses ips :
  forall state, state_ok b state -> state_ok b (add_addresses b state ips).
Proof.
  induction ips as [| ip ips IH]; intros state Hok; [exact Hok |].
  apply IH, state_ok_AddAddress, Hok.
Qed.

Lemma reset_thumb_bit_range ip :
  __thumb__ b = true -> 0 <= reset_thumb_bit b ip < 2 ^ pointer_bits b.
Proof.
  intros Hthumb. unfold reset_thumb_bit, to_word. rewrite Hthumb.
  assert (Hbits : 0 <= pointer_bits b)
    by (destruct (pointer_bits_cases b) as [-> | ->]; lia).
  rewrite <- Z.land_ones by exact Hbits.
  rewrite Z.land_assoc, Z.land_ones by exact Hbits.
  apply Z.mod_pos_bound. apply Z.pow_pos_nonneg; lia.
Qed.

(** X1: whatever its result, a call to [AddAddress] leaves the context
    pointer and the skip counter as they were and writes no cell of the
    array other than the one at index [address_count]: an address already
    stored is never overwritten. *)
Theorem AddAddress_writes_one_cell state ip :
  signal_ucontext (snd (BacktraceState_AddAddress b state ip))
    = signal_ucontext state /\
  address_skip_count (snd (BacktraceState_AddAddress b state ip))
    = address_skip_count state /\
  length (addresses (snd (BacktraceState_AddAddress b state ip)))
    = length (addresses state) /\
  (forall i : nat,
     i <> Z.to_nat (address_count state) ->
     addresses (snd (BacktraceState_AddAddress b state ip)) !! i
     = addresses state !! i).
Proof.
  destruct (AddAddress_cases b state ip)
    as [[_ H] | [[_ [_ H]] | [_ [_ H]]]]; rewrite H; cbn [snd];
    try (repeat split; reflexivity).
  cbn [store_address signal_ucontext address_skip_count addresses].
  split; [reflexivity |]. split; [reflexivity |].
  split; [apply length_insert |].
  intros i Hi. apply list_lookup_insert_ne. congruence.
Qed.

(** X2: in every state the program can build no two neighbouring stored
    addresses are equal. *)
Theorem stored_neighbours_differ state :
  reachable b state ->
  forall (i : nat) a a',
    stored_addresses state !! i = Some a ->
    stored_addresses state !! S i = Some a' ->
    a <> a'.
Proof.
  induction 1 as [ucontext | state ip Hreach IH | state Hreach IH Hskip].
  - intros i a a' Ha. unfold stored_addresses in Ha. cbn in Ha. discriminate.
  - pose proof (reachable_state_ok b state Hreach) as Hok.
    pose proof (stored_addresses_length state Hok) as Hlen.
    destruct (AddAddress_cases b state ip)
      as [[_ H] | [[_ [_ H]] | [Hroom [Hfresh H]]]];
      rewrite H; cbn [snd]; try exact IH.
    rewrite stored_addresses_store by assumption.
    intros i a a' Ha Ha'.
    apply lookup_snoc_Some in Ha'. destruct Ha' as [[Hi Hold] | [Hi <-]].
    + rewrite lookup_app_l in Ha by lia. now apply (IH i).
    + rewrite lookup_app_l in Ha by lia.
      destruct Hfresh as [Hzero | [_ Hlast]]; [lia |].
      assert (Hprev : stored_addresses state !! i = Some (last_address state)).
      { rewrite stored_addresses_lookup by lia.
        replace i with (Z.to_nat (address_count state - 1)) by lia.
        apply (last_address_lookup b); [exact Hok | lia]. }
      congruence.
  - exact IH.
Qed.

(** X3: in every state the program can build, no stored address other than
    the first is null. *)
Theorem stored_null_only_first state (i : nat) a :
  reachable b state ->
  stored_addresses state !! S i = Some a ->
  a <> 0.
Proof.
  intros Hreach Hlook.
  pose proof (reachable_state_ok b state Hreach) as Hok.
  assert (Hi : (S i < Z.to_nat (address_count state))%nat).
  { rewrite <- (stored_addresses_length state Hok).
    apply lookup_lt_is_Some. eauto. }
  rewrite stored_addresses_lookup in Hlook by exact Hi.
  apply (reachable_nonnull_after_first b state Hreach (S i) a); [lia | exact Hlook].
Qed.

(** X4: submitting the same address twice in a row leaves the state the
    first submission left; and on a collector that holds an address, full
    or not, neither a null address nor the last stored address changes
    anything. *)
Theorem repeated_address_changes_nothing state ip :
  reachable b state ->
  snd (BacktraceState_AddAddress b
         (snd (BacktraceState_AddAddress b state ip)) ip)
    = snd (BacktraceState_AddAddress b state ip) /\
  (0 < address_count state ->
   snd (BacktraceState_AddAddress b state 0) = state /\
   snd (BacktraceState_AddAddress b state (last_address state)) = state).
Proof.
  intros Hreach.
  pose proof (reachable_state_ok b state Hreach) as Hok.
  assert (Hunchanged : forall s a,
    state_ok b s -> 0 < address_count s ->
    reset_thumb_bit b a = 0 \/ reset_thumb_bit b a = last_address s ->
    snd (BacktraceState_AddAddress b s a) = s).
  { intros s a Hs Hpos Ha.
    destruct (AddAddress_cases b s a)
      as [[_ H] | [[_ [_ H]] | [_ [[Hzero | [Hnz Hnl]] H]]]];
      try (rewrite H; reflexivity); [lia |].
    destruct Ha; contradiction. }
  split.
  - destruct (AddAddress_cases b state ip)
      as [[Hfull H] | [[Hpos [Hign H]] | [Hroom [_ H]]]]; rewrite H; cbn [snd].
    + now rewrite AddAddress_full.
    + apply Hunchanged; [exact Hok | lia | exact Hign].
    + destruct (store_address_lookup b state (reset_thumb_bit b ip) Hok Hroom)
        as [Hnext Hnew].
      pose proof (ok_count b state Hok) as Hcount.
      apply Hunchanged.
      * apply state_ok_store; auto using reset_thumb_bit_idem.
      * lia.
      * right. unfold last_address. rewrite Hnext.
        replace (address_count state + 1 - 1) with (address_count state) by lia.
        symmetry. now apply list_lookup_total_correct.
  - intros Hpos. split; apply Hunchanged; auto.
    + left. apply reset_thumb_bit_0.
    + right. now apply reset_thumb_bit_last.
Qed.

End StoredAddressesFacts.

Lemma stored_neighbours_differ_witness :
  stored_addresses
    (add_addresses build_arm64 (BacktraceState_Init (fault_at 4096))
       [4096; 4096; 8192; 0; 8192; 4096])
  = [4096; 8192; 4096] /\
  4096 <> 8192.
Proof.
  split; [vm_compute; reflexivity |].
  apply (stored_neighbours_differ build_arm64
           (add_addresses build_arm64 (BacktraceState_Init (fault_at 4096))
              [4096; 4096; 8192; 0; 8192; 4096])
           (reachable_add_addresses _ _ _ (reachable_Init _ _)) 0%nat);
    vm_compute; reflexivity.
Defined.

Lemma stored_null_only_first_witness :
  stored_addresses
    (add_addresses build_arm64 (BacktraceState_Init (fault_at 0)) [0; 0; 4096; 0])
  = [0; 4096] /\
  4096 <> 0.
Proof.
  split; [vm_compute; reflexivity |].
  apply (stored_null_only_first build_arm64
           (add_addresses build_arm64 (BacktraceState_Init (fault_at 0))
              [0; 0; 4096; 0]) 0%nat 4096
           (reachable_add_addresses _ _ _ (reachable_Init _ _))).
  vm_compute. reflexivity.
Defined.

Lemma repeated_address_changes_nothing_witness :
  snd (BacktraceState_AddAddress build_armv7_thumb
         (full_state build_armv7_thumb) 0)
  = full_state build_armv7_thumb.
Proof.
  assert (Hpos : 0 < address_count (full_state build_armv7_thumb))
    by (vm_compute; reflexivity).
  exact (proj1 (proj2 (repeated_address_changes_nothing build_armv7_thumb
                         (full_state build_armv7_thumb) 0
                         (reachable_add_addresses _ _ _ (reachable_Init _ _)))
                  Hpos)).
Defined.

Section CollectorSequenceFacts.

Variable b : Build.

Lemma last_address_stored state :
  state_ok b state -> 0 < address_count state ->
  stored_addresses state !! Z.to_nat (address_count state - 1)
  = Some (last_address state).
Proof.
  intros Hok Hpos. rewrite stored_addresses_lookup by lia.
  now apply (last_address_lookup b).
Qed.

(** X5: on a Thumb build every stored address, in every state the program
    can build, has its low bit clear and fits the machine word. *)
Theorem stored_addresses_thumb_clean state (i : nat) a :
  reachable b state ->
  __thumb__ b = true ->
  stored_addresses state !! i = Some a ->
  Z.testbit a 0 = false /\ 0 <= a < 2 ^ pointer_bits b.
Proof.
  intros Hreach Hthumb Hlook.
  pose proof (reachable_state_ok b state Hreach) as Hok.
  assert (Hi : (i < Z.to_nat (address_count state))%nat).
  { rewrite <- (stored_addresses_length b state Hok).
    apply lookup_lt_is_Some. eauto. }
  rewrite stored_addresses_lookup in Hlook by exact Hi.
  pose proof (ok_thumb b state Hok i a Hi Hlook) as Hfix.
  rewrite <- Hfix. split.
  - now apply reset_thumb_bit_even.
  - now apply reset_thumb_bit_range.
Qed.

(** X6: a list of calls never lowers the count and raises it by at most the
    number of calls. *)
Theorem count_bounded_by_calls state ips :
  reachable b state ->
  address_count state <= address_count (add_addresses b state ips)
    <= address_count state + Z.of_nat (length ips).
Proof.
  intros Hreach. apply reachable_state_ok in Hreach.
  revert state Hreach.
  induction ips as [| ip ips IH]; intros state Hok.
  - cbn. lia.
  - cbn [add_addresses fold_left length].
    pose proof (AddAddress_count b state ip Hok) as Hone.
    pose proof (IH _ (state_ok_AddAddress b state ip Hok)) as Hrest.
    unfold add_addresses in Hrest. lia.
Qed.

(** X8: the collector only appends: what is stored before a list of calls
    is a prefix of what is stored after it. *)
Theorem stored_addresses_only_grow state ips :
  reachable b state ->
  stored_addresses state `prefix_of`
    stored_addresses (add_addresses b state ips).
Proof.
  intros Hreach. apply reachable_state_ok in Hreach.
  revert state Hreach.
  induction ips as [| ip ips IH]; intros state Hok.
  - reflexivity.
  - cbn [add_addresses fold_left].
    pose proof (IH _ (state_ok_AddAddress b state ip Hok)) as Hrest.
    unfold add_addresses in Hrest.
    destruct (stored_addresses_AddAddress b state ip Hok) as [Hsame | [_ Hmore]].
    + now rewrite Hsame in Hrest.
    + rewrite Hmore in Hrest.
      etransitivity; [| exact Hrest]. now apply prefix_app_r.
Qed.

(** X7: a list of at most 30 addresses that the filters have nothing to
    object to (each already free of the Thumb bit, none null after the
    first, no two neighbours equal) is stored exactly as submitted. *)
Theorem clean_addresses_round_trip ucontext ips :
  (length ips <= Z.to_nat address_count_max)%nat ->
  (forall a, In a ips -> reset_thumb_bit b a = a) ->
  (forall (i : nat) a, ips !! S i = Some a -> a <> 0) ->
  (forall (i : nat) a a', ips !! i = Some a -> ips !! S i = Some a' -> a <> a') ->
  stored_addresses (add_addresses b (BacktraceState_Init ucontext) ips) = ips /\
  address_count (add_addresses b (BacktraceState_Init ucontext) ips)
    = Z.of_nat (length ips).
Proof.
  induction ips as [| x ips IH] using rev_ind; intros Hlen Hfix Hnull Hadj.
  - split; reflexivity.
  - rewrite length_app in Hlen. cbn [length] in Hlen.
    destruct IH as [Hstored Hcnt].
    + lia.
    + intros a Ha. apply Hfix. apply in_or_app. now left.
    + intros i a Ha. apply (Hnull i). now apply lookup_app_l_Some.
    + intros i a a' Ha Ha'. apply (Hadj i); now apply lookup_app_l_Some.
    + rewrite add_addresses_snoc.
      set (state := add_addresses b (BacktraceState_Init ucontext) ips) in *.
      assert (Hok : state_ok b state)
        by apply state_ok_add_addresses, state_ok_Init.
      assert (Hx : reset_thumb_bit b x = x).
      { apply Hfix. apply in_or_app. right. now left. }
      assert (Hroom : address_count state < address_count_max)
        by (unfold address_count_max in *; lia).
      destruct (AddAddress_cases b state x)
        as [[Hfull _] | [[Hpos [Hign _]] | [_ [_ H]]]]; [lia | exfalso |].
      * rewrite Hx in Hign.
        assert (Hlast : (ips ++ [x]) !! S (length ips - 1) = Some x).
        { replace (S (length ips - 1)) with (length ips) by lia.
          apply list_lookup_middle. reflexivity. }
        destruct Hign as [Hzero | Hdup].
        -- now apply (Hnull _ _ Hlast).
        -- apply (Hadj (length ips - 1)%nat (last_address state) x);
             [| exact Hlast | now symmetry].
           apply lookup_app_l_Some.
           pose proof (last_address_stored state Hok ltac:(lia)) as Hprev.
           rewrite Hstored in Hprev.
           replace (Z.to_nat (address_count state - 1))
             with (length ips - 1)%nat in Hprev by lia.
           exact Hprev.
      * rewrite H. cbn [snd]. rewrite Hx.
        rewrite stored_addresses_store by assumption.
        destruct (store_address_lookup b state x Hok Hroom) as [Hnext _].
        rewrite Hnext, Hstored, length_app. cbn [length]. split; [reflexivity | lia].
Qed.

End CollectorSequenceFacts.

Lemma stored_addresses_thumb_clean_witness :
  Z.testbit 8192 0 = false /\ 0 <= 8192 < 2 ^ pointer_bits build_armv7_thumb.
Proof.
  apply (stored_addresses_thumb_clean build_armv7_thumb
           (add_addresses build_armv7_thumb (BacktraceState_Init (fault_at 4097))
              [4097; 8193]) 1%nat 8192
           (reachable_add_addresses _ _ _ (reachable_Init _ _)) eq_refl).
  vm_compute. reflexivity.
Defined.

Lemma count_bounded_by_calls_witness :
  3 <= address_count
         (add_addresses build_arm64 (three_frames_state build_arm64) [0; 12288; 7])
    <= 3 + 3.
Proof.
  apply (count_bounded_by_calls build_arm64 (three_frames_state build_arm64)
           [0; 12288; 7]
           (reachable_add_addresses _ _ _ (reachable_Init _ _))).
Defined.

Lemma stored_addresses_only_grow_witness :
  [4096; 8192; 12288] `prefix_of`
    stored_addresses
      (add_addresses build_arm64 (three_frames_state build_arm64) [0; 12288; 7]).
Proof.
  apply (stored_addresses_only_grow build_arm64 (three_frames_state build_arm64)
           [0; 12288; 7]
           (reachable_add_addresses _ _ _ (reachable_Init _ _))).
Defined.

Lemma clean_addresses_round_trip_witness :
  stored_addresses
    (add_addresses build_armv7_thumb (BacktraceState_Init (fault_at 0))
       [0; 4096; 8192; 4096])
  = [0; 4096; 8192; 4096].
Proof.
  apply (proj1 (clean_addresses_round_trip build_armv7_thumb (fault_at 0)
                  [0; 4096; 8192; 4096] ltac:(vm_compute; lia)
                  ltac:(intros a Ha; cbn in Ha;
                        repeat (destruct Ha as [<- | Ha]; [reflexivity |]);
                        contradiction)
                  ltac:(intros [| [| [| i]]] a Ha; cbn in Ha;
                        try discriminate; injection Ha as <-; lia)
                  ltac:(intros [| [| [| i]]] a a' Ha Ha'; cbn in Ha, Ha';
                        try discriminate;
                        injection Ha as <-; injection Ha' as <-; lia))).
Defined.

(** ** The callbacks under [_Unwind_Backtrace] *)

Section CallbackFacts.

Variable b : Build.
Context {runtime : UnwindRuntime}.

(** What a state may become while a strategy runs: still one the program
    can build, with the stored addresses extended and the context pointer
    kept. *)
Lemma AddAddress_grows state ip :
  reachable b state ->
  reachable b (snd (BacktraceState_AddAddress b state ip)) /\
  stored_addresses state `prefix_of`
    stored_addresses (snd (BacktraceState_AddAddress b state ip)) /\
  signal_ucontext (snd (BacktraceState_AddAddress b state ip))
    = signal_ucontext state.
Proof.
  intros Hreach. split; [now constructor |]. split.
  - destruct (stored_addresses_AddAddress b state ip
                (reachable_state_ok b state Hreach)) as [-> | [_ ->]];
      [reflexivity | now apply prefix_app_r].
  - destruct (AddAddress_cases b state ip)
      as [[_ H] | [[_ [_ H]] | [_ [_ H]]]]; rewrite H; reflexivity.
Qed.

Lemma reachable_skip_count state :
  reachable b state -> 0 <= address_skip_count state <= 3.
Proof.
  induction 1 as [ucontext | state ip Hreach IH | state Hreach IH Hskip].
  - cbn. lia.
  - destruct (AddAddress_cases b state ip)
      as [[_ H] | [[_ [_ H]] | [_ [_ H]]]]; rewrite H; exact IH.
  - cbn [decrement_skip_count address_skip_count].
    rewrite to_word_small by (unfold address_count_max; lia). lia.
Qed.

Lemma registers_callback_unfold unwind_context state :
  UnwindBacktraceWithRegistersCallback b unwind_context state
  = if address_count state =? 0 then
      (_URC_NO_REASON, fst (ProcessRegisters b unwind_context state),
       snd (BacktraceState_AddAddress b state
              (arm_pc (uc_mcontext (signal_ucontext state)))))
    else
      (if fst (BacktraceState_AddAddress b state (_Unwind_GetIP unwind_context))
       then _URC_NO_REASON else _URC_END_OF_STACK,
       unwind_context,
       snd (BacktraceState_AddAddress b state (_Unwind_GetIP unwind_context))).
Proof.
  unfold UnwindBacktraceWithRegistersCallback.
  destruct (address_count state =? 0); [reflexivity |].
  destruct (BacktraceState_AddAddress b state (_Unwind_GetIP unwind_context))
    as [[|] state1]; reflexivity.
Qed.

Lemma skipping_callback_unfold unwind_context state :
  UnwindBacktraceWithSkippingCallback b unwind_context state
  = if address_skip_count state >? 0 then
      (_URC_NO_REASON, decrement_skip_count b state)
    else
      (if fst (BacktraceState_AddAddress b state (_Unwind_GetIP unwind_context))
       then _URC_NO_REASON else _URC_END_OF_STACK,
       snd (BacktraceState_AddAddress b state (_Unwind_GetIP unwind_context))).
Proof.
  unfold UnwindBacktraceWithSkippingCallback.
  destruct (address_skip_count state >? 0); [reflexivity |].
  destruct (BacktraceState_AddAddress b state (_Unwind_GetIP unwind_context))
    as [[|] state1]; reflexivity.
Qed.

Lemma AddAddress_result_false state ip :
  reachable b state ->
  fst (BacktraceState_AddAddress b state ip) = false <->
  address_count state = address_count_max.
Proof.
  intros Hreach.
  pose proof (ok_count b state (reachable_state_ok b state Hreach)) as Hcount.
  split.
  - intros Hfalse.
    destruct (Z.lt_ge_cases (address_count state) address_count_max)
      as [Hroom | Hfull]; [| lia].
    rewrite AddAddress_room in Hfalse by assumption. discriminate.
  - intros Hfull. rewrite AddAddress_full by lia. reflexivity.
Qed.

(** X9: once an address is stored, the registers callback leaves the unwind
    context as it received it, submits the frame's own instruction pointer
    to the collector, and asks the runtime to stop exactly when the
    collector is already full. *)
Theorem registers_callback_later_invocation state unwind_context :
  reachable b state ->
  0 < address_count state ->
  snd (fst (UnwindBacktraceWithRegistersCallback b unwind_context state))
    = unwind_context /\
  snd (UnwindBacktraceWithRegistersCallback b unwind_context state)
    = snd (BacktraceState_AddAddress b state (_Unwind_GetIP unwind_context)) /\
  (fst (fst (UnwindBacktraceWithRegistersCallback b unwind_context state))
     = _URC_END_OF_STACK <->
   address_count state = address_count_max).
Proof.
  intros Hreach Hpos. rewrite registers_callback_unfold.
  destruct (Z.eqb_spec (address_count state) 0) as [Hzero | _]; [lia |].
  cbn [fst snd]. split; [reflexivity |]. split; [reflexivity |].
  rewrite <- (AddAddress_result_false state (_Unwind_GetIP unwind_context) Hreach).
  destruct (fst (BacktraceState_AddAddress b state (_Unwind_GetIP unwind_context)));
    split; congruence.
Qed.

(** X10: the skipping callback asks the runtime to stop exactly when its
    skip counter is zero and the collector is already full; while the
    counter is positive its answer and the state it leaves do not depend on
    the frame, and the stored addresses stay as they are. *)
Theorem skipping_callback_stops_iff_full state unwind_context :
  reachable b state ->
  (fst (UnwindBacktraceWithSkippingCallback b unwind_context state)
     = _URC_END_OF_STACK <->
   address_skip_count state = 0 /\ address_count state = address_count_max) /\
  (0 < address_skip_count state ->
   stored_addresses
     (snd (UnwindBacktraceWithSkippingCallback b unwind_context state))
     = stored_addresses state /\
   forall other_context,
     UnwindBacktraceWithSkippingCallback b other_context state
     = UnwindBacktraceWithSkippingCallback b unwind_context state).
Proof.
  intros Hreach.
  pose proof (reachable_skip_count state Hreach) as Hskip.
  split.
  - rewrite skipping_callback_unfold, Z.gtb_ltb.
    destruct (Z.ltb_spec 0 (address_skip_count state)) as [Hpos | Hzero];
      cbn [fst].
    + split; [discriminate | lia].
    + rewrite <- (AddAddress_result_false state (_Unwind_GetIP unwind_context)
                    Hreach).
      destruct (fst (BacktraceState_AddAddress b state
                       (_Unwind_GetIP unwind_context)));
        split; try congruence; try (intros [_ H]; congruence).
      intros _. split; [lia | reflexivity].
  - intros Hpos. split.
    + rewrite skipping_callback_unfold, Z.gtb_ltb.
      destruct (Z.ltb_spec 0 (address_skip_count state)) as [_ | Hzero]; [| lia].
      reflexivity.
    + intros other. rewrite !skipping_callback_unfold, Z.gtb_ltb.
      destruct (Z.ltb_spec 0 (address_skip_count state)) as [_ | Hzero]; [| lia].
      reflexivity.
Qed.

(** X11: along the invocations of the skipping callback from a freshly
    initialised state, whatever the frames, the skip counter after the
    [k]-th invocation is [max 0 (3 - k)]: it counts down to zero, stays
    there, and the decrement never wraps around. *)
Theorem skip_count_counts_down ucontext frames (i : nat) r :
  skipping_invocations b frames (BacktraceState_Init ucontext) !! i = Some r ->
  address_skip_count (snd r) = Z.max 0 (3 - Z.of_nat (S i)).
Proof.
  assert (Hgen : forall frames state (i : nat) r,
            reachable b state ->
            skipping_invocations b frames state !! i = Some r ->
            address_skip_count (snd r)
            = Z.max 0 (address_skip_count state - Z.of_nat (S i))).
  { clear frames i r.
    induction frames as [| c frames IH]; intros state i r Hreach Hlook;
      [discriminate |].
    pose proof (reachable_skip_count state Hreach) as Hskip.
    cbn [skipping_invocations] in Hlook.
    assert (Hnext :
      reachable b (snd (UnwindBacktraceWithSkippingCallback b c state)) /\
      address_skip_count (snd (UnwindBacktraceWithSkippingCallback b c state))
      = Z.max 0 (address_skip_count state - 1)).
    { rewrite skipping_callback_unfold, Z.gtb_ltb.
      destruct (Z.ltb_spec 0 (address_skip_count state)) as [Hpos | Hzero];
        cbn [snd].
      - split; [constructor; [exact Hreach | lia] |].
        cbn [decrement_skip_count address_skip_count].
        rewrite to_word_small by (unfold address_count_max; lia). lia.
      - split; [now constructor |].
        destruct (AddAddress_cases b state (_Unwind_GetIP c))
          as [[_ H] | [[_ [_ H]] | [_ [_ H]]]]; rewrite H; cbn; lia. }
    destruct Hnext as [Hreach1 Hskip1].
    destruct i as [| i]; cbn in Hlook.
    - injection Hlook as <-. rewrite Hskip1. lia.
    - rewrite (IH _ i r Hreach1 Hlook). rewrite Hskip1. lia. }
  intros Hlook. now rewrite (Hgen frames _ i r (reachable_Init b ucontext) Hlook).
Qed.

End CallbackFacts.

Lemma registers_callback_later_invocation_witness :
  fst (fst (UnwindBacktraceWithRegistersCallback build_armv7_thumb
              (frame_of 8193) (three_frames_state build_armv7_thumb)))
    <> _URC_END_OF_STACK /\
  stored_addresses
    (snd (UnwindBacktraceWithRegistersCallback build_armv7_thumb
            (frame_of 8193) (three_frames_state build_armv7_thumb)))
  = [4096; 8192; 12288; 8192].
Proof.
  destruct (registers_callback_later_invocation build_armv7_thumb
              (three_frames_state build_armv7_thumb) (frame_of 8193)
              (reachable_add_addresses _ _ _ (reachable_Init _ _)))
    as [_ [Hstate Hstop]].
  - vm_compute. reflexivity.
  - split.
    + intros Hend. apply Hstop in Hend. vm_compute in Hend. discriminate.
    + rewrite Hstate. vm_compute. reflexivity.
Defined.

Lemma skipping_callback_stops_iff_full_witness :
  stored_addresses
    (snd (UnwindBacktraceWithSkippingCallback build_arm64 (frame_of 8192)
            (three_frames_state build_arm64)))
  = stored_addresses (three_frames_state build_arm64).
Proof.
  destruct (skipping_callback_stops_iff_full build_arm64
              (three_frames_state build_arm64) (frame_of 8192)
              (reachable_add_addresses _ _ _ (reachable_Init _ _)))
    as [_ Hskipping].
  destruct Hskipping as [Hsame _]; [vm_compute; reflexivity | exact Hsame].
Defined.

Lemma skip_count_counts_down_witness :
  address_skip_count
    (snd (UnwindBacktraceWithSkippingCallback build_arm64 (frame_of 22)
            (with_skip_count (BacktraceState_Init (fault_at 4096)) 2)))
  = Z.max 0 (3 - 2).
Proof.
  apply (skip_count_counts_down build_arm64 (fault_at 4096)
           [frame_of 11; frame_of 22; frame_of 33] 1%nat).
  vm_compute. reflexivity.
Defined.

(** ** The callback strategies as a whole *)

Section DriverFacts.

Variable b : Build.
Context {runtime : UnwindRuntime}.

(** A relation that every invocation of the callback respects holds between
    the state before and the state after the whole walk. *)
Lemma _Unwind_Backtrace_respects
    (trace : _Unwind_Context -> BacktraceState ->
             _Unwind_Reason_Code * BacktraceState)
    (R : BacktraceState -> BacktraceState -> Prop) :
  (forall s, R s s) ->
  (forall s1 s2 s3, R s1 s2 -> R s2 s3 -> R s1 s3) ->
  (forall c s, R s (snd (trace c s))) ->
  forall frames state, R state (_Unwind_Backtrace trace frames state).
Proof.
  intros Hrefl Htrans Hstep.
  induction frames as [| c frames IH]; intros state; [apply Hrefl |].
  cbn [_Unwind_Backtrace].
  pose proof (Hstep c state) as Hone.
  destruct (trace c state) as [[|] state1]; cbn [snd] in Hone.
  - eapply Htrans; [exact Hone | apply IH].
  - exact Hone.
Qed.

(** The relation of [AddAddress_grows]. *)
Lemma grows_refl state :
  reachable b state ->
  reachable b state /\
  stored_addresses state `prefix_of` stored_addresses state /\
  signal_ucontext state = signal_ucontext state.
Proof. intros Hreach. split; [exact Hreach |]. split; reflexivity. Qed.

Lemma registers_callback_state unwind_context state :
  snd (UnwindBacktraceWithRegistersCallback b unwind_context state)
  = snd (BacktraceState_AddAddress b state
           (if address_count state =? 0
            then arm_pc (uc_mcontext (signal_ucontext state))
            else _Unwind_GetIP unwind_context)).
Proof.
  rewrite registers_callback_unfold.
  destruct (address_count state =? 0); reflexivity.
Qed.

Lemma registers_strategy_grows frames state :
  reachable b state ->
  reachable b (UnwindBacktraceWithRegisters b frames state) /\
  stored_addresses state `prefix_of`
    stored_addresses (UnwindBacktraceWithRegisters b frames state).
Proof.
  set (R := fun s s' : BacktraceState =>
              reachable b s ->
              reachable b s' /\
              stored_addresses s `prefix_of` stored_addresses s').
  apply (_Unwind_Backtrace_respects _ R).
  - intros s Hs. split; [exact Hs | reflexivity].
  - intros s1 s2 s3 H12 H23 Hs.
    destruct (H12 Hs) as [Hr2 Hp2]. destruct (H23 Hr2) as [Hr3 Hp3].
    split; [exact Hr3 | etransitivity; eassumption].
  - intros c s Hs.
    pose proof (registers_callback_state c s) as Hstate.
    destruct (UnwindBacktraceWithRegistersCallback b c s) as [[code c1] s1].
    cbn [snd] in *. rewrite Hstate.
    destruct (AddAddress_grows b s
                (if address_count s =? 0
                 then arm_pc (uc_mcontext (signal_ucontext s))
                 else _Unwind_GetIP c) Hs) as [Hr [Hp _]].
    split; assumption.
Qed.

(** X12: both callback strategies, over any frames and from any state the
    program can build, end in a state the program can build (so with at
    most 30 addresses), with the addresses stored before still in front and
    the context pointer unchanged. *)
Theorem callback_strategies_only_append frames state :
  reachable b state ->
  (reachable b (UnwindBacktraceWithRegisters b frames state) /\
   stored_addresses state `prefix_of`
     stored_addresses (UnwindBacktraceWithRegisters b frames state) /\
   signal_ucontext (UnwindBacktraceWithRegisters b frames state)
     = signal_ucontext state) /\
  (reachable b (UnwindBacktraceWithSkipping b frames state) /\
   stored_addresses state `prefix_of`
     stored_addresses (UnwindBacktraceWithSkipping b frames state) /\
   signal_ucontext (UnwindBacktraceWithSkipping b frames state)
     = signal_ucontext state).
Proof.
  set (R := fun s s' : BacktraceState =>
              reachable b s ->
              reachable b s' /\
              stored_addresses s `prefix_of` stored_addresses s' /\
              signal_ucontext s' = signal_ucontext s).
  assert (Hrefl : forall s, R s s) by (intros s Hs; now apply grows_refl).
  assert (Htrans : forall s1 s2 s3, R s1 s2 -> R s2 s3 -> R s1 s3).
  { intros s1 s2 s3 H12 H23 Hreach.
    destruct (H12 Hreach) as [Hr2 [Hp2 Hu2]].
    destruct (H23 Hr2) as [Hr3 [Hp3 Hu3]].
    split; [exact Hr3 |]. split; [etransitivity; eassumption | congruence]. }
  intros Hreach. split.
  - apply (_Unwind_Backtrace_respects _ R Hrefl Htrans); [| exact Hreach].
    intros c s Hs.
    pose proof (registers_callback_state c s) as Hstate.
    destruct (UnwindBacktraceWithRegistersCallback b c s) as [[code c1] s1].
    cbn [snd] in *. rewrite Hstate. now apply AddAddress_grows.
  - apply (_Unwind_Backtrace_respects _ R Hrefl Htrans); [| exact Hreach].
    intros c s Hs. rewrite skipping_callback_unfold, Z.gtb_ltb.
    destruct (Z.ltb_spec 0 (address_skip_count s)) as [Hpos | _]; cbn [snd].
    + split; [constructor; [exact Hs | lia] |]. split; reflexivity.
    + now apply AddAddress_grows.
Qed.

(** X15: a full collector is final: from a state the program can build that
    holds 30 addresses, the registers strategy returns the state as it is
    and the skipping strategy leaves the same 30 addresses, whatever frames
    follow. *)
Theorem full_collector_is_final frames state :
  reachable b state ->
  address_count state = address_count_max ->
  UnwindBacktraceWithRegisters b frames state = state /\
  stored_addresses (UnwindBacktraceWithSkipping b frames state)
    = stored_addresses state.
Proof.
  intros Hreach Hfull. split.
  - destruct frames as [| c frames]; [reflexivity |].
    unfold UnwindBacktraceWithRegisters. cbn [_Unwind_Backtrace].
    rewrite registers_callback_unfold.
    destruct (Z.eqb_spec (address_count state) 0) as [Hzero | _];
      [unfold address_count_max in *; lia |].
    rewrite AddAddress_full by lia. reflexivity.
  - revert state Hreach Hfull.
    induction frames as [| c frames IH]; intros state Hreach Hfull;
      [reflexivity |].
    unfold UnwindBacktraceWithSkipping in *. cbn [_Unwind_Backtrace].
    rewrite skipping_callback_unfold, Z.gtb_ltb.
    destruct (Z.ltb_spec 0 (address_skip_count state)) as [Hpos | _].
    + rewrite IH; [reflexivity | constructor; [exact Hreach | lia] | exact Hfull].
    + rewrite AddAddress_full by lia. reflexivity.
Qed.

(** The count after a walk is at most the count before plus the number of
    invocations left once the skip counter is used up. *)
Lemma skipping_count_bound frames :
  forall state,
    reachable b state ->
    address_count (UnwindBacktraceWithSkipping b frames state)
    <= address_count state
       + Z.max 0 (Z.of_nat (length frames) - address_skip_count state).
Proof.
  induction frames as [| c frames IH]; intros state Hreach.
  - cbn. lia.
  - pose proof (reachable_skip_count b state Hreach) as Hskip.
    unfold UnwindBacktraceWithSkipping in *.
    cbn [_Unwind_Backtrace length]. rewrite skipping_callback_unfold, Z.gtb_ltb.
    destruct (Z.ltb_spec 0 (address_skip_count state)) as [Hpos | Hzero].
    + assert (Hnext : reachable b (decrement_skip_count b state))
        by (constructor; [exact Hreach | lia]).
      pose proof (IH _ Hnext) as Hrest.
      cbn [decrement_skip_count address_skip_count address_count] in Hrest.
      rewrite to_word_small in Hrest by (unfold address_count_max; lia).
      lia.
    + pose proof (AddAddress_count b state (_Unwind_GetIP c)
                    (reachable_state_ok b state Hreach)) as Hone.
      pose proof (IH _ (reachable_AddAddress b state (_Unwind_GetIP c) Hreach))
        as Hrest.
      pose proof (reachable_skip_count b _
                    (reachable_AddAddress b state (_Unwind_GetIP c) Hreach))
        as Hskip1.
      destruct (fst (BacktraceState_AddAddress b state (_Unwind_GetIP c)));
        lia.
Qed.

(** X13: the skipping strategy on a freshly initialised state collects at
    most as many addresses as there are frames beyond the first three, and
    never more than 30; with three frames or fewer it collects nothing. *)
Theorem skipping_strategy_count ucontext frames :
  0 <= address_count
         (UnwindBacktraceWithSkipping b frames (BacktraceState_Init ucontext))
    <= Z.min address_count_max (Z.max 0 (Z.of_nat (length frames) - 3)) /\
  ((length frames <= 3)%nat ->
   stored_addresses
     (UnwindBacktraceWithSkipping b frames (BacktraceState_Init ucontext)) = []).
Proof.
  pose proof (skipping_count_bound frames _ (reachable_Init b ucontext)) as Hbound.
  cbn [BacktraceState_Init address_count address_skip_count] in Hbound.
  assert (Hreach : reachable b
            (UnwindBacktraceWithSkipping b frames (BacktraceState_Init ucontext))).
  { set (R := fun s s' : BacktraceState => reachable b s -> reachable b s').
    apply (_Unwind_Backtrace_respects _ R);
      [intros s; exact id | intros s1 s2 s3 H12 H23 H; exact (H23 (H12 H)) |
       | apply reachable_Init].
    intros c s Hs. rewrite skipping_callback_unfold, Z.gtb_ltb.
    destruct (Z.ltb_spec 0 (address_skip_count s)) as [Hpos | _]; cbn [snd];
      constructor; (exact Hs || lia). }
  pose proof (ok_count b _ (reachable_state_ok b _ Hreach)) as Hcount.
  split; [lia |].
  intros Hfew. unfold stored_addresses.
  replace (address_count _) with 0 by lia. reflexivity.
Qed.

(** The registers strategy adds at most one address per invocation. *)
Lemma registers_count_bound frames :
  forall state,
    reachable b state ->
    address_count (UnwindBacktraceWithRegisters b frames state)
    <= address_count state + Z.of_nat (length frames).
Proof.
  induction frames as [| c frames IH]; intros state Hreach.
  - cbn. lia.
  - unfold UnwindBacktraceWithRegisters in *. cbn [_Unwind_Backtrace length].
    pose proof (registers_callback_state c state) as Hstate.
    destruct (UnwindBacktraceWithRegistersCallback b c state)
      as [[code c1] s1]. cbn [snd] in Hstate.
    assert (Hone : address_count s1 <= address_count state + 1 /\ reachable b s1).
    { rewrite Hstate. split; [| now constructor].
      apply (AddAddress_count b state _ (reachable_state_ok b state Hreach)). }
    destruct Hone as [Hone Hreach1].
    destruct code; [pose proof (IH _ Hreach1) |]; lia.
Qed.

(** X14: the registers strategy on a freshly initialised state, as soon as
    the runtime invokes the callback once, yields a backtrace that starts
    with the fault context's program counter (after [reset_thumb_bit]) and
    holds between one address and one per invocation, 30 at most. *)
Theorem registers_strategy_starts_at_fault ucontext unwind_context frames :
  stored_addresses
    (UnwindBacktraceWithRegisters b (unwind_context :: frames)
       (BacktraceState_Init ucontext)) !! 0%nat
  = Some (reset_thumb_bit b (arm_pc (uc_mcontext ucontext))) /\
  1 <= address_count
         (UnwindBacktraceWithRegisters b (unwind_context :: frames)
            (BacktraceState_Init ucontext))
    <= Z.min address_count_max (1 + Z.of_nat (length frames)).
Proof.
  destruct (AddAddress_first b (BacktraceState_Init ucontext)
              (arm_pc (uc_mcontext ucontext)) (state_ok_Init b ucontext) eq_refl)
    as [Hadd [Hone Hfirst]].
  set (state1 := store_address b (BacktraceState_Init ucontext)
                   (reset_thumb_bit b (arm_pc (uc_mcontext ucontext)))) in *.
  assert (Hreach1 : reachable b state1).
  { pose proof (reachable_AddAddress b _ (arm_pc (uc_mcontext ucontext))
                  (reachable_Init b ucontext)) as H.
    now rewrite Hadd in H. }
  assert (Hrun : UnwindBacktraceWithRegisters b (unwind_context :: frames)
                   (BacktraceState_Init ucontext)
                 = UnwindBacktraceWithRegisters b frames state1).
  { unfold UnwindBacktraceWithRegisters. cbn [_Unwind_Backtrace].
    rewrite registers_callback_unfold.
    cbn [BacktraceState_Init address_count Z.eqb signal_ucontext].
    change (BacktraceState_AddAddress b
              {| signal_ucontext := ucontext; address_skip_count := 3;
                 address_count := 0;
                 addresses := replicate (Z.to_nat address_count_max) 0 |})
      with (BacktraceState_AddAddress b (BacktraceState_Init ucontext)).
    rewrite Hadd. reflexivity. }
  rewrite Hrun.
  destruct (registers_strategy_grows frames state1 Hreach1)
    as [Hreach Hprefix].
  pose proof (registers_count_bound frames state1 Hreach1) as Hbound.
  pose proof (ok_count b _ (reachable_state_ok b _ Hreach)) as Hcount.
  pose proof (prefix_length _ _ Hprefix) as Hlen.
  rewrite !(stored_addresses_length b) in Hlen by now apply reachable_state_ok.
  split.
  - apply (prefix_lookup_Some (stored_addresses state1)); [| exact Hprefix].
    rewrite stored_addresses_lookup by (rewrite Hone; cbn; lia).
    exact Hfirst.
  - rewrite Hone in Hbound, Hlen. lia.
Qed.

End DriverFacts.

Lemma callback_strategies_only_append_witness :
  [4096; 8192; 12288] `prefix_of`
    stored_addresses
      (UnwindBacktraceWithRegisters build_armv7_thumb
         [frame_of 12289; frame_of 0; frame_of 16385]
         (three_frames_state build_armv7_thumb)) /\
  [4096; 8192; 12288] `prefix_of`
    stored_addresses
      (UnwindBacktraceWithSkipping build_armv7_thumb
         [frame_of 12289; frame_of 0; frame_of 16385]
         (three_frames_state build_armv7_thumb)).
Proof.
  destruct (callback_strategies_only_append build_armv7_thumb
              [frame_of 12289; frame_of 0; frame_of 16385]
              (three_frames_state build_armv7_thumb)
              (reachable_add_addresses _ _ _ (reachable_Init _ _)))
    as [[_ [Hregisters _]] [_ [Hskipping _]]].
  split; [exact Hregisters | exact Hskipping].
Defined.

Lemma full_collector_is_final_witness :
  UnwindBacktraceWithRegisters build_arm64 [frame_of 7; frame_of 9]
    (full_state build_arm64)
  = full_state build_arm64.
Proof.
  apply (proj1 (full_collector_is_final build_arm64 [frame_of 7; frame_of 9]
                  (full_state build_arm64)
                  (reachable_add_addresses _ _ _ (reachable_Init _ _))
                  ltac:(vm_compute; reflexivity))).
Defined.

Lemma skipping_strategy_count_witness :
  stored_addresses
    (UnwindBacktraceWithSkipping build_arm64
       [frame_of 4096; frame_of 8192; frame_of 12288]
       (BacktraceState_Init (fault_at 4096)))
  = [].
Proof.
  apply (proj2 (skipping_strategy_count build_arm64 (fault_at 4096)
                  [frame_of 4096; frame_of 8192; frame_of 12288])).
  simpl. lia.
Defined.

(** ** The cursor walk, whatever the cursor does *)

Section LibunwindMoreFacts.

Variable b : Build.
Context {libunwind : Libunwind}.

Lemma unwind_frames_grows fuel :
  forall c state state',
    unwind_frames b fuel c state = Some state' ->
    reachable b state ->
    reachable b state' /\
    stored_addresses state `prefix_of` stored_addresses state'.
Proof.
  induction fuel as [| fuel IH]; intros c state state' Hrun Hreach;
    [discriminate |].
  cbn [unwind_frames] in Hrun.
  destruct (unw_step c) as [result cursor].
  destruct (result >? 0).
  - destruct (AddAddress_grows b state (unw_get_reg cursor UNW_REG_IP) Hreach)
      as [Hreach1 [Hprefix1 _]].
    destruct (BacktraceState_AddAddress b state (unw_get_reg cursor UNW_REG_IP))
      as [ok state1]. cbn [snd] in *.
    destruct ok; cbn [negb] in Hrun.
    + destruct (IH _ _ _ Hrun Hreach1) as [Hreach' Hprefix'].
      split; [exact Hreach' | etransitivity; eassumption].
    + injection Hrun as <-. split; assumption.
  - injection Hrun as <-. split; [exact Hreach | reflexivity].
Qed.

(** X16: whenever the cursor walk returns, from a freshly initialised
    state and whatever the cursor yields, the backtrace starts with the
    fault context's program counter (after [reset_thumb_bit]) and holds
    between 1 and 30 addresses. *)
Theorem libunwind_backtrace_starts_at_fault fuel unw_context ucontext state' :
  LibunwindWithRegisters b fuel unw_context (BacktraceState_Init ucontext)
    = Some state' ->
  stored_addresses state' !! 0%nat
    = Some (reset_thumb_bit b (arm_pc (uc_mcontext ucontext))) /\
  1 <= address_count state' <= address_count_max.
Proof.
  intros Hrun. unfold LibunwindWithRegisters in Hrun.
  cbn [BacktraceState_Init signal_ucontext] in Hrun.
  change {| signal_ucontext := ucontext; address_skip_count := 3;
            address_count := 0;
            addresses := replicate (Z.to_nat address_count_max) 0 |}
    with (BacktraceState_Init ucontext) in Hrun.
  destruct (AddAddress_first b (BacktraceState_Init ucontext)
              (arm_pc (uc_mcontext ucontext)) (state_ok_Init b ucontext) eq_refl)
    as [Hadd [Hone Hfirst]].
  pose proof (reachable_AddAddress b _ (arm_pc (uc_mcontext ucontext))
                (reachable_Init b ucontext)) as Hreach1.
  rewrite Hadd in Hrun, Hreach1. cbn [snd] in Hrun, Hreach1.
  destruct (unwind_frames_grows _ _ _ _ Hrun Hreach1) as [Hreach Hprefix].
  pose proof (ok_count b _ (reachable_state_ok b _ Hreach)) as Hcount.
  pose proof (prefix_length _ _ Hprefix) as Hlen.
  rewrite !(stored_addresses_length b) in Hlen by now apply reachable_state_ok.
  rewrite Hone in Hlen. split; [| lia].
  apply (prefix_lookup_Some
           (stored_addresses
              (store_address b (BacktraceState_Init ucontext)
                 (reset_thumb_bit b (arm_pc (uc_mcontext ucontext))))));
    [| exact Hprefix].
  rewrite stored_addresses_lookup by (rewrite Hone; cbn; lia).
  exact Hfirst.
Qed.


(** X18: the walk has no bound of its own.  If from the seeded cursor on
    every step succeeds and always lands on the same instruction pointer
    ([stuck] is a set of cursors closed under such steps), the collector
    ignores the repetitions, never fills up, and the loop never ends: no
    amount of fuel yields a result. *)
Theorem cursor_walk_never_ends_on_a_cycle
    (stuck : unw_cursor_t -> Prop) ip unw_context ucontext :
  stuck (set_registers (unw_init_local unw_context) (uc_mcontext ucontext)) ->
  (forall c, stuck c ->
     fst (unw_step c) > 0 /\
     stuck (snd (unw_step c)) /\
     unw_get_reg (snd (unw_step c)) UNW_REG_IP = ip) ->
  forall fuel,
    LibunwindWithRegisters b fuel unw_context (BacktraceState_Init ucontext)
    = None.
Proof.
  intros Hstart Hstuck fuel.
  set (settled := fun state : BacktraceState =>
         state_ok b state /\ 1 <= address_count state <= 2 /\
         (address_count state = 2 ->
          last_address state = reset_thumb_bit b ip)).
  assert (Hadd : forall state,
            settled state ->
            fst (BacktraceState_AddAddress b state ip) = true /\
            settled (snd (BacktraceState_AddAddress b state ip))).
  { intros state [Hok [Hcount Hlast]].
    destruct (AddAddress_cases b state ip)
      as [[Hfull _] | [[_ [_ H]] | [Hroom [Hfresh H]]]];
      [unfold address_count_max in *; lia | | ]; rewrite H; cbn [fst snd].
    - split; [reflexivity |]. split; [exact Hok |]. split; assumption.
    - split; [reflexivity |].
      destruct (store_address_lookup b state (reset_thumb_bit b ip) Hok Hroom)
        as [Hnext Hnew].
      assert (Hone : address_count state = 1).
      { destruct Hfresh as [Hzero | [_ Hne]]; [lia |].
        destruct (Z.eq_dec (address_count state) 2) as [Htwo | Hnot]; [| lia].
        apply Hlast in Htwo. congruence. }
      split; [apply state_ok_store; auto using reset_thumb_bit_idem |].
      split; [lia |].
      intros _. unfold last_address. rewrite Hnext.
      replace (address_count state + 1 - 1) with (address_count state) by lia.
      now apply list_lookup_total_correct. }
  assert (Hloop : forall fuel c state,
            stuck c -> settled state -> unwind_frames b fuel c state = None).
  { clear fuel. induction fuel as [| fuel IH]; intros c state Hc Hs;
      [reflexivity |].
    cbn [unwind_frames].
    destruct (Hstuck c Hc) as [Hpos [Hnext Hip]].
    destruct (unw_step c) as [result cursor]. cbn [fst snd] in *.
    rewrite Z.gtb_ltb.
    destruct (Z.ltb_spec 0 result) as [_ | Hle]; [| lia].
    rewrite Hip.
    destruct (Hadd state Hs) as [Hok Hs1].
    destruct (BacktraceState_AddAddress b state ip) as [ok state1].
    cbn [fst snd] in *. subst ok. cbn [negb].
    now apply IH. }
  unfold LibunwindWithRegisters. apply Hloop; [exact Hstart |].
  cbn [BacktraceState_Init signal_ucontext].
  change {| signal_ucontext := ucontext; address_skip_count := 3;
            address_count := 0;
            addresses := replicate (Z.to_nat address_count_max) 0 |}
    with (BacktraceState_Init ucontext).
  destruct (AddAddress_first b (BacktraceState_Init ucontext)
              (arm_pc (uc_mcontext ucontext)) (state_ok_Init b ucontext) eq_refl)
    as [Hfirst [Hone _]].
  rewrite Hfirst. cbn [snd].
  split; [| split; [lia | intros Htwo; lia]].
  pose proof (state_ok_AddAddress b (BacktraceState_Init ucontext)
                (arm_pc (uc_mcontext ucontext)) (state_ok_Init b ucontext)) as H.
  now rewrite Hfirst in H.
Qed.

End LibunwindMoreFacts.

Lemma libunwind_backtrace_starts_at_fault_witness :
  stored_addresses
    (snd (add_until_rejected build_armv7_thumb
            (store_address build_armv7_thumb
               (BacktraceState_Init (fault_at 4097)) 4096) [8193]))
    !! 0%nat
  = Some 4096.
Proof.
  apply (proj1 (@libunwind_backtrace_starts_at_fault build_armv7_thumb
                  list_libunwind 2 (cursor_with [8193]) (fault_at 4097) _
                  ltac:(vm_compute; reflexivity))).
Defined.


Lemma cursor_walk_never_ends_on_a_cycle_witness :
  @LibunwindWithRegisters build_armv7_arm stuck_libunwind 1000 8192
    (BacktraceState_Init (fault_at 4096))
  = None.
Proof.
  apply (@cursor_walk_never_ends_on_a_cycle build_armv7_arm stuck_libunwind
           (fun c => c = 8192) 8192 8192 (fault_at 4096) eq_refl).
  intros c ->. split; [reflexivity |]. split; reflexivity.
Defined.

(** ** Printing a collected backtrace *)

Section PrintFacts.

Variable b : Build.
Variable dladdr : Z -> option Dl_info.
Variable __cxa_demangle : string -> option string.

Lemma print_frames_length state remaining :
  forall frame_index,
    snd (print_frames b dladdr __cxa_demangle remaining frame_index state)
      = returns ->
    length (fst (print_frames b dladdr __cxa_demangle remaining frame_index state))
      = remaining.
Proof.
  induction remaining as [| remaining IH]; intros frame_index Hret;
    [reflexivity |].
  cbn [print_frames] in *.
  destruct (addresses state !!! Z.to_nat frame_index =? 0); [discriminate |].
  specialize (IH (frame_index + 1)).
  destruct (print_frames b dladdr __cxa_demangle remaining (frame_index + 1) state)
    as [lines t].
  cbn [fst snd length] in *. now rewrite IH.
Qed.

(** The two ways [PrintBacktrace] ends on a state the program can build. *)
Lemma PrintBacktrace_reachable state :
  reachable b state ->
  (0 < address_count state /\ addresses state !!! 0%nat = 0 /\
   PrintBacktrace b dladdr __cxa_demangle state = ([], assertion_failed)) \/
  ((address_count state = 0 \/ addresses state !!! 0%nat <> 0) /\
   snd (PrintBacktrace b dladdr __cxa_demangle state) = returns /\
   length (fst (PrintBacktrace b dladdr __cxa_demangle state))
     = Z.to_nat (address_count state)).
Proof.
  intros Hreach.
  pose proof (reachable_state_ok b state Hreach) as [Hcount Hlen _].
  unfold PrintBacktrace.
  destruct (Z.eq_dec (address_count state) 0) as [Hempty | Hsome].
  { right. rewrite Hempty. cbn. auto. }
  destruct (Z.eq_dec (addresses state !!! 0%nat) 0) as [Hnull | Hfirst].
  { left. split; [lia |]. split; [exact Hnull |].
    destruct (Z.to_nat (address_count state)) as [| remaining] eqn:Hn; [lia |].
    now apply print_frames_null. }
  right. split; [now right |].
  assert (Hnonnull : forall k : nat,
            (k < Z.to_nat (address_count state))%nat ->
            addresses state !!! Z.to_nat (0 + Z.of_nat k) <> 0).
  { intros k Hk. rewrite Z.add_0_l, Nat2Z.id.
    destruct k as [| k]; [exact Hfirst |].
    apply (reachable_nonnull_after_first b state Hreach (S k)); [lia |].
    apply list_lookup_lookup_total_lt. rewrite Hlen.
    unfold address_count_max in *. lia. }
  destruct (print_frames_nonnull b dladdr __cxa_demangle state
              (Z.to_nat (address_count state)) 0 (Z.le_refl 0) Hnonnull)
    as [Hret _].
  split; [exact Hret | now apply print_frames_length].
Qed.

(** X19: on a state the program can build, [PrintBacktrace] is all or
    nothing: with a null first address it stops at the assertion before
    printing any line; otherwise it returns after printing exactly one line
    per stored address. *)
Theorem PrintBacktrace_all_or_nothing state :
  reachable b state ->
  (0 < address_count state -> addresses state !!! 0%nat = 0 ->
   PrintBacktrace b dladdr __cxa_demangle state = ([], assertion_failed)) /\
  (address_count state = 0 \/ addresses state !!! 0%nat <> 0 ->
   snd (PrintBacktrace b dladdr __cxa_demangle state) = returns /\
   length (fst (PrintBacktrace b dladdr __cxa_demangle state))
     = Z.to_nat (address_count state)).
Proof.
  intros Hreach.
  destruct (PrintBacktrace_reachable state Hreach)
    as [[Hpos [Hnull Habort]] | [Hgood [Hret Hlines]]]; split.
  - intros _ _. exact Habort.
  - intros [Hempty | Hfirst]; [lia | contradiction].
  - intros Hpos Hnull. destruct Hgood as [Hempty | Hfirst]; [lia | contradiction].
  - intros _. split; assumption.
Qed.

End PrintFacts.

Lemma PrintBacktrace_all_or_nothing_witness :
  length (fst (PrintBacktrace build_arm64 no_module no_demangling
                 (three_frames_state build_arm64))) = 3%nat /\
  PrintBacktrace build_arm64 no_module no_demangling
    (null_first_state build_arm64) = ([], assertion_failed).
Proof.
  split.
  - apply (proj2 (PrintBacktrace_all_or_nothing build_arm64 no_module
                    no_demangling (three_frames_state build_arm64)
                    (reachable_add_addresses _ _ _ (reachable_Init _ _)))).
    right. vm_compute. lia.
  - apply (proj1 (PrintBacktrace_all_or_nothing build_arm64 no_module
                    no_demangling (null_first_state build_arm64)
                    (reachable_add_addresses _ _ _ (reachable_Init _ _))));
      vm_compute; reflexivity.
Defined.

(** ** The signal handler as a whole *)

Section SkippingStrategyFacts.

Variable b : Build.
Context {runtime : UnwindRuntime}.

Lemma skipping_strategy_grows frames state :
  reachable b state ->
  reachable b (UnwindBacktraceWithSkipping b frames state) /\
  stored_addresses state `prefix_of`
    stored_addresses (UnwindBacktraceWithSkipping b frames state).
Proof.
  set (R := fun s s' : BacktraceState =>
              reachable b s ->
              reachable b s' /\
              stored_addresses s `prefix_of` stored_addresses s').
  apply (_Unwind_Backtrace_respects _ R).
  - intros s Hs. split; [exact Hs | reflexivity].
  - intros s1 s2 s3 H12 H23 Hs.
    destruct (H12 Hs) as [Hr2 Hp2]. destruct (H23 Hr2) as [Hr3 Hp3].
    split; [exact Hr3 | etransitivity; eassumption].
  - intros c s Hs. rewrite skipping_callback_unfold, Z.gtb_ltb.
    destruct (Z.ltb_spec 0 (address_skip_count s)) as [Hpos | _]; cbn [snd].
    + split; [constructor; [exact Hs | lia] | reflexivity].
    + destruct (AddAddress_grows b s (_Unwind_GetIP c) Hs) as [Hr [Hp _]].
      split; assumption.
Qed.

(** With three frames or fewer nothing is collected. *)
Lemma skipping_strategy_few ucontext frames :
  (length frames <= 3)%nat ->
  reachable b
    (UnwindBacktraceWithSkipping b frames (BacktraceState_Init ucontext)) /\
  address_count
    (UnwindBacktraceWithSkipping b frames (BacktraceState_Init ucontext)) = 0.
Proof.
  intros Hfew.
  destruct (skipping_strategy_grows frames _ (reachable_Init b ucontext))
    as [Hreach _].
  pose proof (skipping_count_bound b frames _ (reachable_Init b ucontext))
    as Hbound.
  cbn [BacktraceState_Init address_count address_skip_count] in Hbound.
  pose proof (ok_count b _ (reachable_state_ok b _ Hreach)) as Hcount.
  split; [exact Hreach | lia].
Qed.

(** With a fourth frame, its instruction pointer is the first address. *)
Lemma skipping_strategy_first ucontext f1 f2 f3 c frames :
  reachable b
    (UnwindBacktraceWithSkipping b (f1 :: f2 :: f3 :: c :: frames)
       (BacktraceState_Init ucontext)) /\
  0 < address_count
        (UnwindBacktraceWithSkipping b (f1 :: f2 :: f3 :: c :: frames)
           (BacktraceState_Init ucontext)) /\
  addresses
    (UnwindBacktraceWithSkipping b (f1 :: f2 :: f3 :: c :: frames)
       (BacktraceState_Init ucontext)) !!! 0%nat
  = reset_thumb_bit b (_Unwind_GetIP c).
Proof.
  set (state0 := with_skip_count (BacktraceState_Init ucontext) 0).
  set (state1 := store_address b state0 (reset_thumb_bit b (_Unwind_GetIP c))).
  assert (Hok0 : state_ok b state0).
  { destruct (state_ok_Init b ucontext) as [Hc Hl Ht]. split; assumption. }
  destruct (AddAddress_first b state0 (_Unwind_GetIP c) Hok0 eq_refl)
    as [Hadd [Hone Hfirst]]. fold state1 in Hadd, Hone, Hfirst.
  assert (Hrun : forall rest,
            UnwindBacktraceWithSkipping b (f1 :: f2 :: f3 :: c :: rest)
              (BacktraceState_Init ucontext)
            = UnwindBacktraceWithSkipping b rest state1).
  { intros rest. unfold UnwindBacktraceWithSkipping. cbn [_Unwind_Backtrace].
    rewrite (skipping_callback_skip b f1)
      by (cbn; unfold address_count_max; lia).
    rewrite (skipping_callback_skip b f2)
      by (cbn; unfold address_count_max; lia).
    rewrite (skipping_callback_skip b f3)
      by (cbn; unfold address_count_max; lia).
    rewrite (skipping_callback_first_add b c) by (reflexivity || exact Hok0).
    reflexivity. }
  rewrite Hrun.
  assert (Hreach1 : reachable b state1).
  { destruct (skipping_strategy_grows [f1; f2; f3; c] _
                (reachable_Init b ucontext)) as [H _].
    now rewrite (Hrun []) in H. }
  destruct (skipping_strategy_grows frames state1 Hreach1) as [Hreach Hprefix].
  pose proof (prefix_length _ _ Hprefix) as Hlen.
  rewrite !(stored_addresses_length b) in Hlen by now apply reachable_state_ok.
  rewrite Hone in Hlen.
  split; [exact Hreach |]. split; [lia |].
  apply list_lookup_total_correct.
  rewrite <- stored_addresses_lookup by lia.
  apply (prefix_lookup_Some (stored_addresses state1)); [| exact Hprefix].
  rewrite stored_addresses_lookup by (rewrite Hone; cbn; lia).
  exact Hfirst.
Qed.

End SkippingStrategyFacts.

Section HandlerFacts.

Variable b : Build.
Context {runtime : UnwindRuntime} {libunwind : Libunwind}.
Variable dladdr : Z -> option Dl_info.
Variable __cxa_demangle : string -> option string.

(** A block on a captured state the program can build. *)
Lemma handler_block_reachable header state :
  reachable b state ->
  (0 < address_count state /\ addresses state !!! 0%nat = 0 /\
   handler_block b dladdr __cxa_demangle header (Some state)
   = Some ([header], assertion_failed)) \/
  ((address_count state = 0 \/ addresses state !!! 0%nat <> 0) /\
   exists lines,
     handler_block b dladdr __cxa_demangle header (Some state)
     = Some (header :: lines, returns) /\
     length lines = Z.to_nat (address_count state)).
Proof.
  intros Hreach. unfold handler_block.
  destruct (PrintBacktrace_reachable b dladdr __cxa_demangle state Hreach)
    as [[Hpos [Hnull Habort]] | [Hgood [Hret Hlines]]].
  - left. rewrite Habort. auto.
  - right. split; [exact Hgood |].
    destruct (PrintBacktrace b dladdr __cxa_demangle state) as [lines t].
    cbn [fst snd] in *. subst t. eauto.
Qed.

(** X20: on a build for an architecture other than 32-bit ARM only the
    skipping strategy runs.  Whenever the handler comes to an end, its
    [_Unwind_Backtrace] walk having returned after invoking the callback on
    [skipping_frames], it has ended in one of three ways: with three frames
    or fewer it printed the header alone and exited with status 0; with a
    fourth frame whose instruction pointer is null it printed the header and
    aborted on the assertion; otherwise it printed the header and one line
    per collected address, between 1 and 30 of them, and exited with status
    0.  Nothing is claimed about walks that do not return. *)
Theorem handler_on_other_architectures
    fuel unw_context registers_frames skipping_frames ucontext result :
  __arm__ b = false ->
  SigActionHandler b dladdr __cxa_demangle fuel unw_context
    registers_frames skipping_frames ucontext = Some result ->
  match skipping_frames !! 3%nat with
  | None => result = ([header_unwind_backtrace_with_skipping], exit 0)
  | Some unwind_context =>
      if _Unwind_GetIP unwind_context =? 0 then
        result = ([header_unwind_backtrace_with_skipping], abort)
      else
        exists lines,
          result = (header_unwind_backtrace_with_skipping :: lines, exit 0) /\
          length lines
            = Z.to_nat (address_count
                          (UnwindBacktraceWithSkipping b skipping_frames
                             (BacktraceState_Init ucontext))) /\
          (1 <= length lines <= 30)%nat
  end.
Proof.
  intros Harm Hresult.
  assert (Hthumb : __thumb__ b = false) by (unfold __thumb__; now rewrite Harm).
  unfold SigActionHandler, LIBUNWIND_WITH_REGISTERS_METHOD,
    UNWIND_BACKTRACE_WITH_REGISTERS_METHOD, UNWIND_BACKTRACE_WITH_SKIPPING_METHOD
    in Hresult.
  rewrite Harm in Hresult.
  destruct (skipping_frames !! 3%nat) as [c |] eqn:Hfourth.
  - destruct skipping_frames as [| f1 [| f2 [| f3 [| c' frames]]]];
      try discriminate Hfourth.
    cbn in Hfourth. injection Hfourth as ->.
    destruct (skipping_strategy_first b ucontext f1 f2 f3 c frames)
      as [Hreach [Hpos Hfirst]].
    rewrite (reset_thumb_bit_no_thumb b _ Hthumb) in Hfirst.
    pose proof (ok_count b _ (reachable_state_ok b _ Hreach)) as Hcount.
    destruct (handler_block_reachable header_unwind_backtrace_with_skipping
                _ Hreach)
      as [[_ [Hnull Hblock]] | [Hgood [lines [Hblock Hlines]]]];
      rewrite Hblock in Hresult; cbn [and_then app] in Hresult;
      injection Hresult as <-; rewrite Hfirst in *.
    + rewrite Hnull. reflexivity.
    + destruct Hgood as [Hempty | Hnonnull]; [lia |].
      destruct (Z.eqb_spec (_Unwind_GetIP c) 0) as [Hzero | _]; [contradiction |].
      exists lines. split; [reflexivity |]. split; [exact Hlines |].
      unfold address_count_max in *. lia.
  - apply lookup_ge_None in Hfourth.
    destruct (skipping_strategy_few b ucontext skipping_frames Hfourth)
      as [Hreach Hempty].
    destruct (handler_block_reachable header_unwind_backtrace_with_skipping
                _ Hreach)
      as [[Hpos _] | [_ [lines [Hblock Hlines]]]]; [lia |].
    rewrite Hblock in Hresult. cbn [and_then app] in Hresult.
    injection Hresult as <-. rewrite Hempty in Hlines.
    destruct lines; [reflexivity | discriminate].
Qed.

(** Whatever the cursor walk returns starts with the fault address. *)
Lemma libunwind_strategy_first fuel unw_context ucontext state' :
  LibunwindWithRegisters b fuel unw_context (BacktraceState_Init ucontext)
    = Some state' ->
  reachable b state' /\ 0 < address_count state' /\
  addresses state' !!! 0%nat
    = reset_thumb_bit b (arm_pc (uc_mcontext ucontext)).
Proof.
  intros Hwalk. unfold LibunwindWithRegisters in Hwalk.
  cbn [BacktraceState_Init signal_ucontext] in Hwalk.
  change {| signal_ucontext := ucontext; address_skip_count := 3;
            address_count := 0;
            addresses := replicate (Z.to_nat address_count_max) 0 |}
    with (BacktraceState_Init ucontext) in Hwalk.
  destruct (AddAddress_first b (BacktraceState_Init ucontext)
              (arm_pc (uc_mcontext ucontext)) (state_ok_Init b ucontext)
              eq_refl) as [Hadd [Hone Hfirst]].
  pose proof (reachable_AddAddress b _ (arm_pc (uc_mcontext ucontext))
                (reachable_Init b ucontext)) as Hreach1.
  rewrite Hadd in Hwalk, Hreach1. cbn [snd] in Hwalk, Hreach1.
  destruct (unwind_frames_grows b _ _ _ _ Hwalk Hreach1) as [Hreach Hprefix].
  pose proof (prefix_length _ _ Hprefix) as Hlen.
  rewrite !(stored_addresses_length b) in Hlen by now apply reachable_state_ok.
  rewrite Hone in Hlen.
  split; [exact Hreach |]. split; [lia |].
  apply list_lookup_total_correct.
  rewrite <- stored_addresses_lookup by lia.
  apply (prefix_lookup_Some
           (stored_addresses
              (store_address b (BacktraceState_Init ucontext)
                 (reset_thumb_bit b (arm_pc (uc_mcontext ucontext))))));
    [| exact Hprefix].
  rewrite stored_addresses_lookup by (rewrite Hone; cbn; lia).
  exact Hfirst.
Qed.

(** The registers strategy collects nothing without a frame and otherwise
    starts with the fault address. *)
Lemma registers_strategy_first frames ucontext :
  reachable b
    (UnwindBacktraceWithRegisters b frames (BacktraceState_Init ucontext)) /\
  (address_count
     (UnwindBacktraceWithRegisters b frames (BacktraceState_Init ucontext)) = 0 \/
   addresses
     (UnwindBacktraceWithRegisters b frames (BacktraceState_Init ucontext))
     !!! 0%nat
   = reset_thumb_bit b (arm_pc (uc_mcontext ucontext))).
Proof.
  destruct (registers_strategy_grows b frames _ (reachable_Init b ucontext))
    as [Hreach _].
  split; [exact Hreach |].
  destruct frames as [| c frames]; [left; reflexivity | right].
  destruct (AddAddress_first b (BacktraceState_Init ucontext)
              (arm_pc (uc_mcontext ucontext)) (state_ok_Init b ucontext)
              eq_refl) as [Hadd [Hone Hfirst]].
  set (state1 := store_address b (BacktraceState_Init ucontext)
                   (reset_thumb_bit b (arm_pc (uc_mcontext ucontext)))) in *.
  assert (Hrun : UnwindBacktraceWithRegisters b (c :: frames)
                   (BacktraceState_Init ucontext)
                 = UnwindBacktraceWithRegisters b frames state1).
  { unfold UnwindBacktraceWithRegisters. cbn [_Unwind_Backtrace].
    rewrite registers_callback_unfold.
    cbn [BacktraceState_Init address_count Z.eqb signal_ucontext].
    change (BacktraceState_AddAddress b
              {| signal_ucontext := ucontext; address_skip_count := 3;
                 address_count := 0;
                 addresses := replicate (Z.to_nat address_count_max) 0 |})
      with (BacktraceState_AddAddress b (BacktraceState_Init ucontext)).
    rewrite Hadd. reflexivity. }
  rewrite Hrun in *.
  assert (Hreach1 : reachable b state1).
  { pose proof (reachable_AddAddress b _ (arm_pc (uc_mcontext ucontext))
                  (reachable_Init b ucontext)) as H.
    now rewrite Hadd in H. }
  destruct (registers_strategy_grows b frames state1 Hreach1) as [_ Hprefix].
  pose proof (prefix_length _ _ Hprefix) as Hlen.
  rewrite !(stored_addresses_length b) in Hlen by now apply reachable_state_ok.
  rewrite Hone in Hlen.
  apply list_lookup_total_correct.
  rewrite <- stored_addresses_lookup by lia.
  apply (prefix_lookup_Some (stored_addresses state1)); [| exact Hprefix].
  rewrite stored_addresses_lookup by (rewrite Hone; cbn; lia).
  exact Hfirst.
Qed.

(** X21: on a 32-bit ARM build, when the fault context's program counter is
    null (or becomes null once the Thumb bit is reset), the handler can only
    end one way: the header of the first strategy, then the failed
    assertion.  No line of any backtrace is printed and the two callback
    strategies never run. *)
Theorem handler_null_fault_on_arm
    fuel unw_context registers_frames skipping_frames ucontext result :
  __arm__ b = true ->
  reset_thumb_bit b (arm_pc (uc_mcontext ucontext)) = 0 ->
  SigActionHandler b dladdr __cxa_demangle fuel unw_context
    registers_frames skipping_frames ucontext = Some result ->
  result = ([header_libunwind_with_registers], abort).
Proof.
  intros Harm Hnull.
  unfold SigActionHandler, LIBUNWIND_WITH_REGISTERS_METHOD. rewrite Harm.
  destruct (LibunwindWithRegisters b fuel unw_context
              (BacktraceState_Init ucontext)) as [state' |] eqn:Hwalk;
    [| discriminate].
  destruct (libunwind_strategy_first fuel unw_context ucontext state' Hwalk)
    as [Hreach [Hpos Hzero]].
  rewrite Hnull in Hzero.
  destruct (handler_block_reachable header_libunwind_with_registers state' Hreach)
    as [[_ [_ Hblock]] | [[Hempty | Hnonnull] _]]; [| lia | contradiction].
  rewrite Hblock. cbn [and_then]. intros Hresult. now injection Hresult as <-.
Qed.

(** X22: on a 32-bit ARM build with a fault address that is not null,
    whenever the handler comes to an end (the cursor walk and the two
    [_Unwind_Backtrace] walks having returned), it has printed the three
    headers in order, each followed by one line per address its strategy
    collected, except that when the fourth frame of the skipping strategy
    has a null instruction pointer no line follows the third header and the
    handler has aborted on the assertion; in every other case it has exited
    with status 0.  Nothing is claimed about walks that do not return. *)
Theorem handler_with_fault_address_on_arm
    fuel unw_context registers_frames skipping_frames ucontext result :
  __arm__ b = true ->
  reset_thumb_bit b (arm_pc (uc_mcontext ucontext)) <> 0 ->
  SigActionHandler b dladdr __cxa_demangle fuel unw_context
    registers_frames skipping_frames ucontext = Some result ->
  exists state' libunwind_lines registers_lines skipping_lines,
    LibunwindWithRegisters b fuel unw_context (BacktraceState_Init ucontext)
      = Some state' /\
    fst result
      = (header_libunwind_with_registers :: libunwind_lines)
        ++ (header_unwind_backtrace_with_registers :: registers_lines)
        ++ (header_unwind_backtrace_with_skipping :: skipping_lines) /\
    length libunwind_lines = Z.to_nat (address_count state') /\
    length registers_lines
      = Z.to_nat (address_count
                    (UnwindBacktraceWithRegisters b registers_frames
                       (BacktraceState_Init ucontext))) /\
    match skipping_frames !! 3%nat with
    | None => snd result = exit 0 /\ skipping_lines = []
    | Some unwind_context =>
        if reset_thumb_bit b (_Unwind_GetIP unwind_context) =? 0
        then snd result = abort /\ skipping_lines = []
        else snd result = exit 0 /\
             length skipping_lines
               = Z.to_nat (address_count
                             (UnwindBacktraceWithSkipping b skipping_frames
                                (BacktraceState_Init ucontext))) /\
             (1 <= length skipping_lines <= 30)%nat
    end.
Proof.
  intros Harm Hfault Hresult.
  unfold SigActionHandler, LIBUNWIND_WITH_REGISTERS_METHOD,
    UNWIND_BACKTRACE_WITH_REGISTERS_METHOD, UNWIND_BACKTRACE_WITH_SKIPPING_METHOD
    in Hresult.
  rewrite Harm in Hresult.
  destruct (LibunwindWithRegisters b fuel unw_context
              (BacktraceState_Init ucontext)) as [state' |] eqn:Hwalk;
    [| discriminate Hresult].
  destruct (libunwind_strategy_first fuel unw_context ucontext state' Hwalk)
    as [HreachA [HposA HfirstA]].
  destruct (handler_block_reachable header_libunwind_with_registers state' HreachA)
    as [[_ [HnullA _]] | [_ [linesA [HblockA HlinesA]]]]; [congruence |].
  destruct (registers_strategy_first registers_frames ucontext)
    as [HreachB HfirstB].
  destruct (handler_block_reachable header_unwind_backtrace_with_registers
              _ HreachB)
    as [[HposB [HnullB _]] | [_ [linesB [HblockB HlinesB]]]].
  { destruct HfirstB as [HemptyB | HfirstB]; [lia | congruence]. }
  rewrite HblockA, HblockB in Hresult.
  exists state', linesA, linesB.
  destruct (skipping_frames !! 3%nat) as [c |] eqn:Hfourth.
  - destruct skipping_frames as [| f1 [| f2 [| f3 [| c' frames]]]];
      try discriminate Hfourth.
    cbn in Hfourth. injection Hfourth as ->.
    destruct (skipping_strategy_first b ucontext f1 f2 f3 c frames)
      as [HreachC [HposC HfirstC]].
    pose proof (ok_count b _ (reachable_state_ok b _ HreachC)) as HcountC.
    destruct (handler_block_reachable header_unwind_backtrace_with_skipping
                _ HreachC)
      as [[_ [HnullC HblockC]] | [HgoodC [linesC [HblockC HlinesC]]]];
      rewrite HblockC in Hresult; cbn [and_then] in Hresult;
      injection Hresult as <-; rewrite HfirstC in *; cbn [fst snd].
    + exists []. split; [reflexivity |]. split; [reflexivity |].
      split; [exact HlinesA |]. split; [exact HlinesB |].
      rewrite HnullC. cbn [Z.eqb]. split; reflexivity.
    + destruct HgoodC as [HemptyC | HnonnullC]; [lia |].
      exists linesC. split; [reflexivity |]. split; [reflexivity |].
      split; [exact HlinesA |]. split; [exact HlinesB |].
      destruct (Z.eqb_spec (reset_thumb_bit b (_Unwind_GetIP c)) 0)
        as [Hzero | _]; [contradiction |].
      split; [reflexivity |]. split; [exact HlinesC |].
      unfold address_count_max in *. lia.
  - apply lookup_ge_None in Hfourth.
    destruct (skipping_strategy_few b ucontext skipping_frames Hfourth)
      as [HreachC HemptyC].
    destruct (handler_block_reachable header_unwind_backtrace_with_skipping
                _ HreachC)
      as [[HposC _] | [_ [linesC [HblockC HlinesC]]]]; [lia |].
    rewrite HblockC in Hresult. cbn [and_then] in Hresult.
    injection Hresult as <-. rewrite HemptyC in HlinesC.
    destruct linesC; [| discriminate].
    exists []. cbn [fst snd]. split; [reflexivity |]. split; [reflexivity |].
      split; [exact HlinesA |]. split; [exact HlinesB |].
    split; reflexivity.
Qed.

End HandlerFacts.

Lemma handler_on_other_architectures_witness :
  @SigActionHandler build_arm64 register_file_runtime list_libunwind
    no_module no_demangling 0 (cursor_with []) []
    [frame_of 1; frame_of 2; frame_of 3; frame_of 0; frame_of 5]
    (fault_at 4096)
  = Some ([header_unwind_backtrace_with_skipping], abort).
Proof.
  assert (Hsome :
    exists result,
      @SigActionHandler build_arm64 register_file_runtime list_libunwind
        no_module no_demangling 0 (cursor_with []) []
        [frame_of 1; frame_of 2; frame_of 3; frame_of 0; frame_of 5]
        (fault_at 4096) = Some result).
  { eexists. vm_compute. reflexivity. }
  destruct Hsome as [result Hresult].
  rewrite Hresult. f_equal.
  exact (@handler_on_other_architectures build_arm64 register_file_runtime
           list_libunwind no_module no_demangling 0 (cursor_with []) []
           [frame_of 1; frame_of 2; frame_of 3; frame_of 0; frame_of 5]
           (fault_at 4096) result eq_refl Hresult).
Defined.

Lemma handler_null_fault_on_arm_witness :
  @SigActionHandler build_armv7_thumb register_file_runtime list_libunwind
    no_module no_demangling 3 (cursor_with [8192])
    [frame_of 4096] [frame_of 1; frame_of 2; frame_of 3; frame_of 4096]
    (fault_at 1)
  = Some ([header_libunwind_with_registers], abort).
Proof.
  assert (Hsome :
    exists result,
      @SigActionHandler build_armv7_thumb register_file_runtime list_libunwind
        no_module no_demangling 3 (cursor_with [8192])
        [frame_of 4096] [frame_of 1; frame_of 2; frame_of 3; frame_of 4096]
        (fault_at 1) = Some result).
  { eexists. vm_compute. reflexivity. }
  destruct Hsome as [result Hresult].
  rewrite Hresult. f_equal.
  apply (@handler_null_fault_on_arm build_armv7_thumb register_file_runtime
           list_libunwind no_module no_demangling 3 (cursor_with [8192])
           [frame_of 4096] [frame_of 1; frame_of 2; frame_of 3; frame_of 4096]
           (fault_at 1) result eq_refl);
    [vm_compute; reflexivity | exact Hresult].
Defined.

Lemma handler_with_fault_address_on_arm_witness :
  exists result,
    @SigActionHandler build_armv7_thumb register_file_runtime list_libunwind
      no_module no_demangling 3 (cursor_with [8193])
      [frame_of 0; frame_of 8193]
      [frame_of 1; frame_of 2; frame_of 3; frame_of 1; frame_of 8193]
      (fault_at 4097)
    = Some result /\
    snd result = abort /\ length (fst result) = 7%nat.
Proof.
  assert (Hsome :
    exists result,
      @SigActionHandler build_armv7_thumb register_file_runtime list_libunwind
        no_module no_demangling 3 (cursor_with [8193])
        [frame_of 0; frame_of 8193]
        [frame_of 1; frame_of 2; frame_of 3; frame_of 1; frame_of 8193]
        (fault_at 4097) = Some result).
  { eexists. vm_compute. reflexivity. }
  destruct Hsome as [result Hresult].
  exists result. split; [exact Hresult |].
  destruct (@handler_with_fault_address_on_arm build_armv7_thumb
              register_file_runtime list_libunwind no_module no_demangling 3
              (cursor_with [8193]) [frame_of 0; frame_of 8193]
              [frame_of 1; frame_of 2; frame_of 3; frame_of 1; frame_of 8193]
              (fault_at 4097) result eq_refl
              ltac:(vm_compute; lia) Hresult)
    as [state' [linesA [linesB [linesC [Hwalk [Hout [HlenA [HlenB Hend]]]]]]]].
  cbn [lookup list_lookup] in Hend.
  destruct Hend as [Habort ->].
  split; [exact Habort |].
  rewrite Hout, !length_app. cbn [length]. rewrite HlenA, HlenB.
  assert (Hstate : Some state' = Some (store_address build_armv7_thumb
            (store_address build_armv7_thumb
               (BacktraceState_Init (fault_at 4097)) 4096) 8192)).
  { rewrite <- Hwalk. vm_compute. reflexivity. }
  injection Hstate as ->.
  vm_compute. reflexivity.
Defined.
